(** * Menu extraction script (scripts/parser.py): a shallow embedding

    The script downloads a cafeteria menu image, asks a generative model for
    a structured weekly menu, validates the answer against the [WeeklyMenu]
    schema, rewrites a few fields of every entry and writes the entries as a
    JSON array under [menus/], unless a file is already there.

    The embedding follows the script top to bottom.  Python values that the
    script manipulates dynamically (the dictionaries returned by
    [model_dump]) are values of [pyval]; exceptions are values of [exn];
    the file system is a finite map from path strings to file contents and
    is threaded through the [io] monad.  Strings are strings of bytes, the
    UTF-8 encoding of the text.  What the script prints on the console is
    not part of the model. *)

From Stdlib Require Import ZArith DecimalString Ascii.
From Stdlib Require QArith_base DecimalZ.
From stdpp Require Import base strings gmap list.

Set Warnings "-register-all".
Local Open Scope Z_scope.
Local Open Scope string_scope.
Local Open Scope list_scope.

(** ** Exceptions and the two monads *)

Inductive exn : Type :=
  | KeyError              (* a missing dictionary key or environment variable *)
  | TypeError             (* an operation applied to a value of the wrong type *)
  | ValueError            (* genai.Client refuses the key *)
  | AssertionError        (* the [assert] of line 68 *)
  | ValidationError       (* pydantic: the response does not fit the schema *)
  | RequestException      (* requests.get raised *)
  | UnidentifiedImageError (* PIL cannot identify the bytes as an image *)
  | APIError              (* the generate_content call failed *)
  | OSError               (* open(..., "w") failed *)
  | NotModelled.          (* Python behaviour that the model leaves out: the
                             repr of a list or dict, the characters of a str *)

Inductive result (A : Type) : Type :=
  | Ok (a : A)
  | Raise (e : exn).
Arguments Ok {A} a.
Arguments Raise {A} e.

#[global] Instance result_ret : MRet result := fun _ a => Ok a.
#[global] Instance result_bind : MBind result := fun _ _ f m =>
  match m with
  | Ok a => f a
  | Raise e => Raise e
  end.

Definition of_option {A} (e : exn) (o : option A) : result A :=
  match o with
  | Some a => Ok a
  | None => Raise e
  end.

(** The file system: path string to file content. *)
Abbreviation files := (gmap string string).

(** A computation that may raise and may change the file system.  What was
    done to the file system before an exception stays done. *)
Definition io (A : Type) : Type := files -> result A * files.

#[global] Instance io_ret : MRet io := fun _ a fs => (Ok a, fs).
#[global] Instance io_bind : MBind io := fun _ _ f m fs =>
  match m fs with
  | (Ok a, fs') => f a fs'
  | (Raise e, fs') => (Raise e, fs')
  end.

Definition lift {A} (r : result A) : io A := fun fs => (r, fs).

(** ** Python values *)

Inductive pyval : Type :=
  | PyNone
  | PyInt (z : Z)
  | PyStr (s : string)
  | PyList (l : list pyval)
  | PyDict (d : list (string * pyval)).

(** A [dict] with string keys keeps its keys in insertion order. *)
Abbreviation pydict := (list (string * pyval)).

(** [d[k]]: [None] stands for the KeyError. *)
Fixpoint dict_get {V} (k : string) (d : list (string * V)) : option V :=
  match d with
  | [] => None
  | (k', v) :: d' => if String.eqb k' k then Some v else dict_get k d'
  end.

(** [d[k] = v]: an existing key keeps its position, a new key goes last. *)
Fixpoint dict_set {V} (k : string) (v : V) (d : list (string * V))
  : list (string * V) :=
  match d with
  | [] => [(k, v)]
  | (k', v') :: d' =>
      if String.eqb k' k then (k, v) :: d' else (k', v') :: dict_set k v d'
  end.

(** [str(n)] for an integer. *)
Definition str_of_int (z : Z) : string := NilZero.string_of_int (Z.to_int z).

(** The text an f-string inserts for [{v}].  For a list or a dict Python
    inserts its [repr], which is outside the model. *)
Definition py_format (v : pyval) : result string :=
  match v with
  | PyNone => Ok "None"
  | PyInt z => Ok (str_of_int z)
  | PyStr s => Ok s
  | PyList _ | PyDict _ => Raise NotModelled
  end.

(** Subscripting with a string key works on dictionaries only. *)
Definition as_dict (v : pyval) : result pydict :=
  match v with
  | PyDict d => Ok d
  | _ => Raise TypeError
  end.

Definition getitem (v : pyval) (k : string) : result pyval :=
  d ← as_dict v; of_option KeyError (dict_get k d).

(** [for x in v].  A dict gives its keys; a str would give its characters,
    which a string of bytes does not single out. *)
Definition py_iter (v : pyval) : result (list pyval) :=
  match v with
  | PyList l => Ok l
  | PyDict d => Ok ((fun kv => PyStr (fst kv)) <$> d)
  | PyStr _ => Raise NotModelled
  | PyNone | PyInt _ => Raise TypeError
  end.

(** ** The schema (lines 21-33) *)

Record DailyMenu : Type := {
  date : string;
  day : string;
  menus : list string;
  calorie : Z;
  time : string
}.

Record WeeklyMenu : Type := {
  items : list DailyMenu;
  restaurant_name : string;
  start_date : string;
  end_date : string
}.

(** ** The field normalizer (lines 71-85) *)

Definition weekday_to_index : list (string * Z) :=
  [("Mon", 1); ("Tue", 2); ("Wed", 3); ("Thu", 4); ("Fri", 5); ("Sat", 6);
   ("Sun", 7)].

Definition time_to_index : list (string * Z) :=
  [("breakfast", 1); ("lunch", 2); ("dinner", 3)].

(** [table[key]] for one of the two tables: a key that is not in the table
    is a KeyError, an unhashable key a TypeError. *)
Definition table_index (table : list (string * Z)) (key : pyval) : result Z :=
  match key with
  | PyStr s => of_option KeyError (dict_get s table)
  | PyNone | PyInt _ => Raise KeyError
  | PyList _ | PyDict _ => Raise TypeError
  end.

(** The body of the loop, for one [daily_menu]. *)
Definition normalize_item (year : Z) (rn : string) (daily_menu : pyval)
  : result pyval :=
  d0 ← as_dict daily_menu;
  c ← of_option KeyError (dict_get "calorie" d0);
  let d1 := match c with
            | PyNone => dict_set "calorie" (PyInt 0) d0
            | _ => d0
            end in
  dt ← of_option KeyError (dict_get "date" d1);
  s ← py_format dt;
  let d2 := dict_set "date" (PyStr (str_of_int year +:+ "-" +:+ s)) d1 in
  let d3 := dict_set "restaurant_name" (PyStr rn) d2 in
  dy ← of_option KeyError (dict_get "day" d3);
  i ← table_index weekday_to_index dy;
  let d4 := dict_set "day" (PyInt i) d3 in
  tm ← of_option KeyError (dict_get "time" d4);
  j ← table_index time_to_index tm;
  let d5 := dict_set "time" (PyInt j) d4 in
  mret (PyDict d5).

(** The loop: entries are appended to [output_for_save] one by one, and the
    first exception ends the loop. *)
Fixpoint normalize_loop (year : Z) (rn : string) (todo : list pyval)
    (output_for_save : list pyval) : result (list pyval) :=
  match todo with
  | [] => Ok output_for_save
  | daily_menu :: rest =>
      match normalize_item year rn daily_menu with
      | Ok d => normalize_loop year rn rest (output_for_save ++ [d])
      | Raise e => Raise e
      end
  end.

(** [model_dump(mode="json")]: fields in declaration order. *)
Definition dump_DailyMenu (d : DailyMenu) : pyval :=
  PyDict [("date", PyStr (date d));
          ("day", PyStr (day d));
          ("menus", PyList (PyStr <$> menus d));
          ("calorie", PyInt (calorie d));
          ("time", PyStr (time d))].

Definition model_dump (w : WeeklyMenu) : pyval :=
  PyDict [("items", PyList (dump_DailyMenu <$> items w));
          ("restaurant_name", PyStr (restaurant_name w));
          ("start_date", PyStr (start_date w));
          ("end_date", PyStr (end_date w))].

(** ** The model's answer and its validation (line 56)

    The response text is taken as the JSON document it denotes.  An object
    is a finite map from member names to values. *)

Inductive json : Type :=
  | JNull
  | JBool (b : bool)
  | JInt (z : Z)
  | JFloat (q : QArith_base.Q)
  | JStr (s : string)
  | JArr (l : list json)
  | JObj (o : gmap string json).

Section Validation.

(** pydantic validates JSON in lax mode: an [int] field also takes a
    boolean, a float without fractional part and a string that reads as an
    integer.  What integer, if any, lax mode makes of such a value is left
    open; nothing below depends on it. *)
Variable lax_int : json -> option Z.

Definition validate_str (v : json) : option string :=
  match v with
  | JStr s => Some s
  | _ => None
  end.

Definition validate_int (v : json) : option Z :=
  match v with
  | JInt z => Some z
  | JBool _ | JFloat _ | JStr _ => lax_int v
  | JNull | JArr _ | JObj _ => None
  end.

Definition validate_list {A} (f : json -> option A) (v : json)
  : option (list A) :=
  match v with
  | JArr l => mapM f l
  | _ => None
  end.

(** A field declared without a default is required. *)
Definition required {A} (o : gmap string json) (name : string)
    (f : json -> option A) : option A :=
  o !! name ≫= f.

Definition validate_DailyMenu (v : json) : option DailyMenu :=
  match v with
  | JObj o =>
      dt ← required o "date" validate_str;
      dy ← required o "day" validate_str;
      ms ← required o "menus" (validate_list validate_str);
      c ← required o "calorie" validate_int;
      tm ← required o "time" validate_str;
      Some {| date := dt; day := dy; menus := ms; calorie := c; time := tm |}
  | _ => None
  end.

Definition validate_WeeklyMenu (v : json) : option WeeklyMenu :=
  match v with
  | JObj o =>
      its ← required o "items" (validate_list validate_DailyMenu);
      rn ← required o "restaurant_name" validate_str;
      sd ← required o "start_date" validate_str;
      ed ← required o "end_date" validate_str;
      Some {| items := its; restaurant_name := rn; start_date := sd;
              end_date := ed |}
  | _ => None
  end.

(** [WeeklyMenu.model_validate_json(response.text)]; [None] is a text
    that is not a JSON document. *)
Definition model_validate_json (text : option json) : result WeeklyMenu :=
  of_option ValidationError (text ≫= validate_WeeklyMenu).

End Validation.

(** ** [json.dumps(..., ensure_ascii=False, indent=2)] (line 86)

    Strings are byte strings holding UTF-8, so leaving every byte from 0x20
    on as it is, apart from the quote and the backslash, is what
    [ensure_ascii=False] does. *)

Definition dquote : ascii := ascii_of_N 34.
Definition backslash : ascii := ascii_of_N 92.
Definition newline : ascii := ascii_of_N 10.

Definition hex_digit (n : N) : ascii :=
  (if n <? 10 then ascii_of_N (48 + n) else ascii_of_N (87 + n))%N.

Definition escape_char (c : ascii) : string :=
  let n := N_of_ascii c in
  let esc (x : ascii) := String backslash (String x "") in
  if (n =? 34)%N then esc dquote
  else if (n =? 92)%N then esc backslash
  else if (n =? 8)%N then esc "b"%char
  else if (n =? 12)%N then esc "f"%char
  else if (n =? 10)%N then esc "n"%char
  else if (n =? 13)%N then esc "r"%char
  else if (n =? 9)%N then esc "t"%char
  else if (n <? 32)%N then
    String backslash
      ("u00" +:+ String (hex_digit (n / 16)) (String (hex_digit (n mod 16)) ""))
  else String c "".

Fixpoint escape (s : string) : string :=
  match s with
  | EmptyString => ""
  | String c s' => escape_char c +:+ escape s'
  end.

Definition encode_str (s : string) : string :=
  String dquote (escape s +:+ String dquote "").

Definition newline_indent (level : nat) : string :=
  String newline (String.string_of_list_ascii (replicate (2 * level) " "%char)).

Fixpoint dumps_at (level : nat) (v : pyval) {struct v} : string :=
  match v with
  | PyNone => "null"
  | PyInt z => str_of_int z
  | PyStr s => encode_str s
  | PyList l =>
      match l with
      | [] => "[]"
      | _ :: _ =>
          "[" +:+ newline_indent (S level)
          +:+ String.concat ("," +:+ newline_indent (S level))
                (map (dumps_at (S level)) l)
          +:+ newline_indent level +:+ "]"
      end
  | PyDict d =>
      match d with
      | [] => "{}"
      | _ :: _ =>
          "{" +:+ newline_indent (S level)
          +:+ String.concat ("," +:+ newline_indent (S level))
                (map (fun '(k, x) => encode_str k +:+ ": " +:+ dumps_at (S level) x) d)
          +:+ newline_indent level +:+ "}"
      end
  end.

Definition dumps (v : pyval) : string := dumps_at 0 v.

(** ** Paths (lines 64-66): [pathlib] on a POSIX system

    A path is a root and a list of components.  Parsing drops empty
    components and ["."]; joining with an absolute path gives that path. *)

Record Path : Type := { root : string; parts : list string }.

(** [s.split("/")] *)
Fixpoint split_slash (s : string) : list string :=
  match s with
  | EmptyString => [""]
  | String c s' =>
      if Ascii.eqb c "/" then "" :: split_slash s'
      else match split_slash s' with
           | [] => [String c ""]
           | p :: ps => String c p :: ps
           end
  end.

Fixpoint leading_slashes (s : string) : nat :=
  match s with
  | EmptyString => 0
  | String c s' => if Ascii.eqb c "/" then S (leading_slashes s') else 0
  end.

(** Exactly two leading slashes are kept, any other number is one root. *)
Definition root_of (s : string) : string :=
  match leading_slashes s with
  | 0%nat => ""
  | 2%nat => "//"
  | _ => "/"
  end.

Definition is_component (p : string) : bool :=
  negb (String.eqb p "") && negb (String.eqb p ".").

Definition mkPath (s : string) : Path :=
  {| root := root_of s; parts := List.filter is_component (split_slash s) |}.

(** [a / b] *)
Definition path_div (a b : Path) : Path :=
  if String.eqb (root b) "" then
    {| root := root a; parts := parts a ++ parts b |}
  else b.

(** [str(p)] *)
Definition path_str (p : Path) : string :=
  match root p, parts p with
  | EmptyString, [] => "."
  | r, ps => r +:+ String.concat "/" ps
  end.

(** ** The outside world *)

Record http_response : Type := { status_code : Z; content : string }.

Record Env : Type := {
  (** [os.environ] *)
  environ : gmap string string;
  (** [requests.get(url)]: the response, of whatever status, or [None]
      when the call raises (no connection, invalid URL, ...) *)
  requests_get : string -> option http_response;
  (** whether [PIL.Image.open] identifies the bytes as an image *)
  image_open : string -> bool;
  (** [generate_content] for an API key and an image: the response text as
      a JSON document ([Some None]: a text that is not one), or [None] when
      the call raises *)
  generate_content : string -> string -> option (option json);
  (** [datetime.now().year] *)
  now_year : Z;
  (** whether [open(path, "w")] can create the file: its directory exists
      and may be written to *)
  can_create : string -> bool
}.

(** ** File operations *)

(** [assert not path.exists()], the interpreter running without [-O]. *)
Definition assert_not_exists (path : string) : io unit := fun fs =>
  match fs !! path with
  | Some _ => (Raise AssertionError, fs)
  | None => (Ok (), fs)
  end.

(** [open(path, "w")]: the file is created, or emptied, at once. *)
Definition open_w (E : Env) (path : string) : io unit := fun fs =>
  if can_create E path then (Ok (), <[path := ""]> fs)
  else (Raise OSError, fs).

(** [f.write(data)] followed by the close at the end of the [with] block:
    the data goes after what the file holds. *)
Definition write (path : string) (data : string) : io unit := fun fs =>
  (Ok (), <[path := default "" (fs !! path) +:+ data]> fs).

(** ** The script *)

(** Line 37, [genai.Client(api_key=...)]: the client keeps the key for the
    calls to come and sends nothing yet; an empty key, the environment
    holding no other credentials for the library to fall back on, is refused
    with ValueError.  The client is given by the key it keeps. *)
Definition genai_client (api_key : string) : result string :=
  if String.eqb api_key "" then Raise ValueError else Ok api_key.

Section Script.

Variable lax_int : json -> option Z.
Variable E : Env.

(** Lines 42-43.  The image is given by the bytes it was opened from. *)
Definition fetch_image (image_url : string) : result string :=
  response ← of_option RequestException (requests_get E image_url);
  if image_open E (content response) then Ok (content response)
  else Raise UnidentifiedImageError.

(** Lines 46-54. *)
Definition request_extraction (client image_data : string)
  : result (option json) :=
  of_option APIError (generate_content E client image_data).

(** Lines 58-66. *)
Definition save_file_name (year : Z) (rn sd : string) : string :=
  rn +:+ "_" +:+ str_of_int year +:+ "-" +:+ sd +:+ ".json".

Definition final_path (year : Z) (parsed_result : WeeklyMenu) : string :=
  path_str
    (path_div (mkPath "menus")
       (mkPath (save_file_name year (restaurant_name parsed_result)
                  (start_date parsed_result)))).

(** Lines 75-85: what the [with] block computes before it writes. *)
Definition output_for_save (year : Z) (parsed_result : WeeklyMenu)
  : result (list pyval) :=
  let json_data := model_dump parsed_result in
  its ← getitem json_data "items";
  todo ← py_iter its;
  normalize_loop year (restaurant_name parsed_result) todo [].

(** Lines 58-86: everything after validation. *)
Definition persist (parsed_result : WeeklyMenu) : io unit :=
  let year := now_year E in
  let path := final_path year parsed_result in
  _ ← assert_not_exists path;
  _ ← open_w E path;
  out ← lift (output_for_save year parsed_result);
  write path (dumps (PyList out)).

Definition main : io unit :=
  api_key ← lift (of_option KeyError (environ E !! "GEMINI_API_KEY"));
  client ← lift (genai_client api_key);
  image_url ← lift (of_option KeyError (environ E !! "IMAGE_URL"));
  image_data ← lift (fetch_image image_url);
  text ← lift (request_extraction client image_data);
  parsed_result ← lift (model_validate_json lax_int text);
  persist parsed_result.

End Script.

(** ** A concrete run: the end-to-end scenario of the specification *)

Module Scenario.

(** A stand-in for the lax conversion; the documents below hold neither
    booleans nor floats nor numbers written as strings. *)
Definition no_lax : json -> option Z := fun _ => None.

Definition entry (dy : string) (cal : json) : json :=
  JObj (list_to_map
          [("date", JStr "03-04"); ("day", JStr dy);
           ("menus", JArr [JStr "Rice"; JStr "Soup"]);
           ("calorie", cal); ("time", JStr "lunch")]).

Definition answer (rn : string) (its : list json) : json :=
  JObj (list_to_map
          [("items", JArr its); ("restaurant_name", JStr rn);
           ("start_date", JStr "03-04"); ("end_date", JStr "03-08")]).

(** A dictionary as the loop would see it if a calorie could be None. *)
Definition entry_without_calorie : pydict :=
  [("date", PyStr "03-04"); ("day", PyStr "Mon");
   ("menus", PyList [PyStr "Rice"; PyStr "Soup"]);
   ("calorie", PyNone); ("time", PyStr "lunch")].

(** A validated answer whose second entry is the earlier day. *)
Definition two_days : WeeklyMenu :=
  {| items := [ {| date := "03-05"; day := "Wed"; menus := ["Noodles"];
                   calorie := 650; time := "dinner" |};
                {| date := "03-04"; day := "Tue"; menus := ["Rice"; "Soup"];
                   calorie := 0; time := "lunch" |} ];
     restaurant_name := "학생_식당";
     start_date := "03-04"; end_date := "03-08" |}.

Definition image_url : string := "https://example.org/menu.png".
Definition image_bytes : string := "PNG".

Definition env (status : Z) (doc : json) : Env :=
  {| environ := list_to_map [("GEMINI_API_KEY", "key"); ("IMAGE_URL", image_url)];
     requests_get := fun url =>
       if String.eqb url image_url
       then Some {| status_code := status; content := image_bytes |}
       else None;
     image_open := fun bytes => String.eqb bytes image_bytes;
     generate_content := fun _ _ => Some (Some doc);
     now_year := 2025;
     can_create := fun _ => true |}.

Definition run (E : Env) (fs : files) : result unit * files :=
  main no_lax E fs.

End Scenario.

(** ** Vocabulary of the properties *)

(** What the loop body makes of a validated entry whose day is the [i]th
    weekday and whose time is the [j]th meal. *)
Definition normalized_entry (year : Z) (rn : string) (d : DailyMenu) (i j : Z)
  : pyval :=
  PyDict [("date", PyStr (str_of_int year +:+ "-" +:+ date d));
          ("day", PyInt i);
          ("menus", PyList (PyStr <$> menus d));
          ("calorie", PyInt (calorie d));
          ("time", PyInt j);
          ("restaurant_name", PyStr rn)].

(** An entry whose weekday and meal time are among the symbols of the
    schema's field descriptions. *)
Definition valid_entry (d : DailyMenu) : Prop :=
  is_Some (dict_get (day d) weekday_to_index) ∧
  is_Some (dict_get (time d) time_to_index).

(** [table] maps exactly the [symbols], one to one, onto 1..[n]. *)
Definition bijection_onto (table : list (string * Z)) (symbols : list string)
    (n : Z) : Prop :=
  (∀ s, s ∈ symbols ↔ is_Some (dict_get s table)) ∧
  (∀ s s' i, dict_get s table = Some i → dict_get s' table = Some i → s = s') ∧
  (∀ i, (∃ s, dict_get s table = Some i) ↔ (1 ≤ i ≤ n)%Z).

(** A text without the path separator. *)
Definition no_slash (s : string) : Prop :=
  "/"%char ∉ String.list_ascii_of_string s.

(** A document one of whose items has no calorie, or [null] for it. *)
Definition lacks_calorie (doc : json) : Prop :=
  ∃ top l o, doc = JObj top ∧ top !! "items" = Some (JArr l) ∧ JObj o ∈ l ∧
             (o !! "calorie" = None ∨ o !! "calorie" = Some JNull).

(** Two of the restaurant names of the schema: the Halal section of the
    dormitory dining hall, and the dining hall itself. *)
Definition dormitory_halal : string := "기숙사_식당_할랄".
Definition dormitory : string := "기숙사_식당_한식".

(** A file name none of whose components, as cut at the slashes, is empty
    or ["."]: it does not start with a slash, and parsing it drops nothing. *)
Definition proper_components (name : string) : Prop :=
  Forall (λ p, is_component p = true) (split_slash name).

(** ** Further runs and vocabulary *)

Module Cases.

(** The environment of the scenario, a part of it changed at a time. *)
Definition good : Env :=
  Scenario.env 200 (Scenario.answer "학생_식당" [Scenario.entry "Mon" (JInt 0)]).





Definition read_only : Env :=
  {| environ := environ good;
     requests_get := requests_get good;
     image_open := image_open good;
     generate_content := generate_content good;
     now_year := now_year good;
     can_create := fun _ => false |}.

(** The validated answer of the scenario, and one without items. *)
Definition monday : WeeklyMenu :=
  {| items := [ {| date := "03-04"; day := "Mon"; menus := ["Rice"; "Soup"];
                   calorie := 0; time := "lunch" |} ];
     restaurant_name := "학생_식당";
     start_date := "03-04"; end_date := "03-08" |}.

Definition no_items : WeeklyMenu :=
  {| items := []; restaurant_name := "학생_식당";
     start_date := "03-04"; end_date := "03-08" |}.

(** A week whose second day is written out in full. *)
Definition second_day_unknown : WeeklyMenu :=
  {| items := [ {| date := "03-04"; day := "Mon"; menus := ["Rice"];
                   calorie := 0; time := "lunch" |};
                {| date := "03-05"; day := "Tuesday"; menus := ["Soup"];
                   calorie := 0; time := "lunch" |};
                {| date := "03-06"; day := "Wed"; menus := [];
                   calorie := 0; time := "supper" |} ];
     restaurant_name := "학생_식당";
     start_date := "03-04"; end_date := "03-08" |}.

(** A dictionary with a key of its own and a restaurant name already. *)
Definition entry_with_note : pydict :=
  [("note", PyStr "closed at noon"); ("restaurant_name", PyStr "?");
   ("date", PyStr "03-04"); ("day", PyStr "Mon");
   ("menus", PyList [PyStr "Rice"; PyStr "Soup"]);
   ("calorie", PyInt 5); ("time", PyStr "lunch")].

(** The target of the scenario and what a good run leaves there. *)
Definition target : string := "menus/학생_식당_2025-03-04.json".

Definition monday_output : list pyval :=
  [PyDict [("date", PyStr "2025-03-04"); ("day", PyInt 1);
           ("menus", PyList [PyStr "Rice"; PyStr "Soup"]);
           ("calorie", PyInt 0); ("time", PyInt 2);
           ("restaurant_name", PyStr "학생_식당")]].

(** A file system with the file of another week. *)
Definition other_week : files := {[ "menus/학생_식당_2025-02-25.json" := "[]" ]}.

End Cases.

(** The keys that the loop body assigns. *)
Definition assigned_keys : list string :=
  ["calorie"; "date"; "restaurant_name"; "day"; "time"].

(** The keys of a persisted entry, in the order of the file. *)
Definition entry_keys : list string :=
  ["date"; "day"; "menus"; "calorie"; "time"; "restaurant_name"].

(** A byte that [json.dumps] writes as it is: not a control byte, not the
    quote, not the backslash.  Every byte of a multi-byte UTF-8 sequence is
    one. *)
Definition plain_byte (c : ascii) : bool :=
  let n := N_of_ascii c in
  ((32 <=? n) && negb (n =? 34) && negb (n =? 92))%N.

(** The run gets as far as a validated answer [w]: both variables are
    set, the key is not empty, the image is fetched, the model answers and
    the answer validates. *)
Definition validated_answer (lax : json -> option Z) (E : Env) (w : WeeklyMenu)
  : Prop :=
  ∃ api_key image_url image_data text,
    environ E !! "GEMINI_API_KEY" = Some api_key ∧
    api_key ≠ "" ∧
    environ E !! "IMAGE_URL" = Some image_url ∧
    fetch_image E image_url = Ok image_data ∧
    generate_content E api_key image_data = Some text ∧
    model_validate_json lax text = Ok w.

(** * Properties *)

(** ** Dictionaries *)

Section Dict.
Context {V : Type}.
Implicit Types (d : list (string * V)) (k : string) (v : V).

Lemma dict_get_set_eq k v d : dict_get k (dict_set k v d) = Some v.
Proof.
  induction d as [|[k' v'] d IH]; simpl.
  - by rewrite String.eqb_refl.
  - destruct (String.eqb k' k) eqn:Hk; simpl.
    + by rewrite String.eqb_refl.
    + by rewrite Hk.
Qed.

Lemma dict_get_set_ne k k' v d :
  k ≠ k' → dict_get k' (dict_set k v d) = dict_get k' d.
Proof.
  intros Hne. induction d as [|[k0 v0] d IH]; simpl.
  - by apply String.eqb_neq in Hne as ->.
  - destruct (String.eqb k0 k) eqn:Hk; simpl.
    + apply String.eqb_eq in Hk as ->.
      by apply String.eqb_neq in Hne as ->.
    + by rewrite IH.
Qed.

Lemma dict_get_Some k v d : dict_get k d = Some v → (k, v) ∈ d.
Proof.
  induction d as [|[k' v'] d IH]; simpl; [done|].
  destruct (String.eqb k' k) eqn:Hk.
  - apply String.eqb_eq in Hk as ->. intros [= ->]. apply list_elem_of_here.
  - intros H. apply list_elem_of_further. auto.
Qed.

End Dict.

(** ** The normalizer *)

Ltac unfold_result := unfold mbind, mret, result_bind, result_ret, of_option in *.

Lemma normalize_item_dump year rn d :
  normalize_item year rn (dump_DailyMenu d) =
    match dict_get (day d) weekday_to_index with
    | None => Raise KeyError
    | Some i =>
        match dict_get (time d) time_to_index with
        | None => Raise KeyError
        | Some j => Ok (normalized_entry year rn d i j)
        end
    end.
Proof.
  unfold normalize_item, dump_DailyMenu, normalized_entry. unfold_result.
  cbn -[weekday_to_index time_to_index str_of_int String.append].
  destruct (dict_get (day d) weekday_to_index) as [i|]; [|done].
  cbn -[weekday_to_index time_to_index str_of_int String.append].
  by destruct (dict_get (time d) time_to_index).
Qed.

(** The slots of a dictionary that went through the loop body. *)
Lemma normalize_item_inv year rn v out :
  normalize_item year rn v = Ok out →
  ∃ d d' c dt s i j,
    v = PyDict d ∧ out = PyDict d' ∧
    dict_get "calorie" d = Some c ∧
    dict_get "date" d = Some dt ∧ py_format dt = Ok s ∧
    (dict_get "day" d ≫= λ k, Some (table_index weekday_to_index k)) = Some (Ok i) ∧
    (dict_get "time" d ≫= λ k, Some (table_index time_to_index k)) = Some (Ok j) ∧
    dict_get "calorie" d' = Some (match c with PyNone => PyInt 0 | _ => c end) ∧
    dict_get "date" d' = Some (PyStr (str_of_int year +:+ "-" +:+ s)) ∧
    dict_get "restaurant_name" d' = Some (PyStr rn) ∧
    dict_get "day" d' = Some (PyInt i) ∧
    dict_get "time" d' = Some (PyInt j).
Proof.
  unfold normalize_item. unfold_result.
  destruct v as [| | | |d]; simpl; try discriminate.
  destruct (dict_get "calorie" d) as [c|] eqn:Hc; [|discriminate].
  set (d1 := match c with PyNone => dict_set "calorie" (PyInt 0) d | _ => d end).
  assert (Hd1 : ∀ k, k ≠ "calorie" → dict_get k d1 = dict_get k d).
  { intros k Hk. subst d1. destruct c; try done.
    by apply dict_get_set_ne. }
  assert (Hc1 : dict_get "calorie" d1
                = Some (match c with PyNone => PyInt 0 | _ => c end)).
  { subst d1. destruct c; try done. apply dict_get_set_eq. }
  clearbody d1.
  destruct (dict_get "date" d1) as [dt|] eqn:Hdt; [|discriminate].
  destruct (py_format dt) as [s|] eqn:Hs; [|discriminate].
  rewrite !dict_get_set_ne by done.
  destruct (dict_get "day" d1) as [dy|] eqn:Hdy; [|discriminate].
  destruct (table_index weekday_to_index dy) as [i|] eqn:Hi; [|discriminate].
  rewrite !dict_get_set_ne by done.
  destruct (dict_get "time" d1) as [tm|] eqn:Htm; [|discriminate].
  destruct (table_index time_to_index tm) as [j|] eqn:Hj; [|discriminate].
  intros [= <-].
  rewrite Hd1 in Hdt, Hdy, Htm by done.
  eexists d, _, c, dt, s, i, j. split_and!; try done.
  - by rewrite Hdy; simpl; rewrite Hi.
  - by rewrite Htm; simpl; rewrite Hj.
  - by rewrite !dict_get_set_ne by done.
  - rewrite !dict_get_set_ne by done. apply dict_get_set_eq.
  - rewrite !dict_get_set_ne by done. apply dict_get_set_eq.
  - rewrite !dict_get_set_ne by done. apply dict_get_set_eq.
  - apply dict_get_set_eq.
Qed.

(** The loop appends, in order, what the body makes of each entry. *)
Lemma normalize_loop_Ok year rn todo acc out :
  normalize_loop year rn todo acc = Ok out ↔
  ∃ out', out = acc ++ out' ∧
          Forall2 (λ x o, normalize_item year rn x = Ok o) todo out'.
Proof.
  revert acc. induction todo as [|x todo IH]; intros acc; simpl.
  - split.
    + intros [= <-]. exists []. by rewrite app_nil_r.
    + intros (out' & -> & H). apply Forall2_nil_inv_l in H as ->.
      by rewrite app_nil_r.
  - destruct (normalize_item year rn x) as [o|e] eqn:Hx.
    + rewrite IH. split.
      * intros (out' & -> & H). exists (o :: out').
        split; [by rewrite <- app_assoc|]. by constructor.
      * intros (out' & -> & H).
        apply Forall2_cons_inv_l in H as (o' & out'' & Ho & H & ->).
        assert (o' = o) as -> by congruence.
        exists out''. split; [by rewrite <- app_assoc|done].
    + split; [done|]. intros (out' & _ & H).
      apply Forall2_cons_inv_l in H as (o' & ? & Ho & _). congruence.
Qed.

(** The loop raises exactly when the body raises on some entry, after
    succeeding on those before it. *)
Lemma normalize_loop_Raise year rn todo acc e :
  normalize_loop year rn todo acc = Raise e ↔
  ∃ done x rest, todo = done ++ x :: rest ∧
    Forall (λ y, ∃ o, normalize_item year rn y = Ok o) done ∧
    normalize_item year rn x = Raise e.
Proof.
  revert acc. induction todo as [|x todo IH]; intros acc; simpl.
  - split; [done|]. intros (dn & y & rest & H & _). by destruct dn.
  - destruct (normalize_item year rn x) as [o|e'] eqn:Hx.
    + rewrite IH. split.
      * intros (dn & y & rest & -> & Hdn & Hy).
        exists (x :: dn), y, rest. split_and!; [done| |done].
        constructor; eauto.
      * intros (dn & y & rest & Heq & Hdn & Hy).
        destruct dn as [|x' dn]; simplify_eq/=; [congruence|].
        apply Forall_cons in Hdn as [_ Hdn]. by exists dn, y, rest.
    + split.
      * intros [= ->]. exists [], x, todo. split_and!; by try constructor.
      * intros (dn & y & rest & Heq & Hdn & Hy).
        destruct dn as [|x' dn]; simplify_eq/=; [congruence|].
        apply Forall_cons in Hdn as [[o Ho] _]. congruence.
Qed.

Lemma output_for_save_unfold year w :
  output_for_save year w =
    normalize_loop year (restaurant_name w) (dump_DailyMenu <$> items w) [].
Proof. done. Qed.

Lemma output_for_save_Ok year w out :
  output_for_save year w = Ok out ↔
  Forall2 (λ d o, normalize_item year (restaurant_name w) (dump_DailyMenu d) = Ok o)
    (items w) out.
Proof.
  rewrite output_for_save_unfold, normalize_loop_Ok. split.
  - intros (out' & -> & H). by apply Forall2_fmap_l in H.
  - intros H. exists out. split; [done|]. by apply Forall2_fmap_l.
Qed.

(** ** The mapping tables *)

Ltac table_cases H :=
  apply dict_get_Some in H;
  repeat (apply elem_of_cons in H as [H|H]; [try by simplify_eq|]);
  [simplify_eq..|by apply elem_of_nil in H].

Lemma weekday_bijection :
  bijection_onto weekday_to_index
    ["Mon"; "Tue"; "Wed"; "Thu"; "Fri"; "Sat"; "Sun"] 7.
Proof.
  split_and!.
  - intros s. split.
    + intros H. repeat (apply elem_of_cons in H as [->|H]; [by eexists|]).
      by apply elem_of_nil in H.
    + intros [i H]. table_cases H; set_solver.
  - intros s s' i H H'. table_cases H; table_cases H'; done.
  - intros i. split.
    + intros [s H]. table_cases H; lia.
    + intros Hi.
      assert (i = 1 ∨ i = 2 ∨ i = 3 ∨ i = 4 ∨ i = 5 ∨ i = 6 ∨ i = 7)
        as [->|[->|[->|[->|[->|[->| ->]]]]]] by lia;
        [by exists "Mon"|by exists "Tue"|by exists "Wed"|by exists "Thu"
        |by exists "Fri"|by exists "Sat"|by exists "Sun"].
Qed.

Lemma time_bijection :
  bijection_onto time_to_index ["breakfast"; "lunch"; "dinner"] 3.
Proof.
  split_and!.
  - intros s. split.
    + intros H. repeat (apply elem_of_cons in H as [->|H]; [by eexists|]).
      by apply elem_of_nil in H.
    + intros [i H]. table_cases H; set_solver.
  - intros s s' i H H'. table_cases H; table_cases H'; done.
  - intros i. split.
    + intros [s H]. table_cases H; lia.
    + intros Hi. assert (i = 1 ∨ i = 2 ∨ i = 3) as [->|[->| ->]] by lia;
        [by exists "breakfast"|by exists "lunch"|by exists "dinner"].
Qed.

(** C3: the weekday table maps exactly Mon..Sun, one to one, onto 1..7 with
    Mon=1 .. Sun=7; the meal-time table maps exactly breakfast, lunch and
    dinner, one to one, onto 1..3 in that order; and on an entry whose day
    or time is any other symbol the loop body raises KeyError, so no default
    index is ever produced. *)
Theorem C3_tables_are_bijections_and_unknown_symbols_raise :
  bijection_onto weekday_to_index
    ["Mon"; "Tue"; "Wed"; "Thu"; "Fri"; "Sat"; "Sun"] 7 ∧
  (λ s, dict_get s weekday_to_index)
    <$> ["Mon"; "Tue"; "Wed"; "Thu"; "Fri"; "Sat"; "Sun"]
    = Some <$> [1; 2; 3; 4; 5; 6; 7] ∧
  bijection_onto time_to_index ["breakfast"; "lunch"; "dinner"] 3 ∧
  (λ s, dict_get s time_to_index) <$> ["breakfast"; "lunch"; "dinner"]
    = Some <$> [1; 2; 3] ∧
  (∀ year rn d,
     day d ∉ ["Mon"; "Tue"; "Wed"; "Thu"; "Fri"; "Sat"; "Sun"] ∨
     time d ∉ ["breakfast"; "lunch"; "dinner"] →
     normalize_item year rn (dump_DailyMenu d) = Raise KeyError).
Proof.
  split_and!; [apply weekday_bijection|done|apply time_bijection|done|].
  intros year rn d H. rewrite normalize_item_dump.
  destruct (dict_get (day d) weekday_to_index) as [i|] eqn:Hd; [|done].
  destruct (dict_get (time d) time_to_index) as [j|] eqn:Ht; [|done].
  destruct H as [H|H]; exfalso; apply H.
  - apply weekday_bijection. by eexists.
  - apply time_bijection. by eexists.
Qed.

Lemma C3_witness :
  normalize_item 2025 "학생_식당"
    (dump_DailyMenu {| date := "03-04"; day := "Monday"; menus := ["Rice"];
                       calorie := 1; time := "lunch" |})
  = Raise KeyError.
Proof.
  apply C3_tables_are_bijections_and_unknown_symbols_raise.
  left. apply (bool_decide_unpack _). by vm_compute.
Defined.

(** ** Dates *)

(** C5: the loop body replaces the date [s] of an entry by the decimal
    text of the year, a dash and [s], whatever [s] is; with date "11-20" and
    year 2024 the entry leaves the body with date "2024-11-20". *)
Theorem C5_date_is_year_dash_date :
  (∀ year rn d s out,
     dict_get "date" d = Some (PyStr s) →
     normalize_item year rn (PyDict d) = Ok out →
     getitem out "date" = Ok (PyStr (str_of_int year +:+ "-" +:+ s))) ∧
  (∀ rn d,
     date d = "11-20" → valid_entry d →
     ∃ out, normalize_item 2024 rn (dump_DailyMenu d) = Ok out ∧
            getitem out "date" = Ok (PyStr "2024-11-20")).
Proof.
  split.
  - intros year rn d s out Hd H.
    apply normalize_item_inv in H
      as (d0 & d' & c & dt & s' & i & j & [= <-] & -> & _ & Hdt & Hs & _ & _
          & _ & Hdate & _).
    rewrite Hd in Hdt. injection Hdt as <-. injection Hs as <-.
    unfold getitem. unfold_result. simpl. by rewrite Hdate.
  - intros rn d Hd [[i Hi] [j Hj]]. rewrite normalize_item_dump, Hi, Hj.
    eexists. split; [done|]. unfold normalized_entry. by rewrite Hd.
Qed.

Lemma C5_witness :
  (∃ out,
     normalize_item 2024 "학생_식당"
       (dump_DailyMenu {| date := "11-20"; day := "Wed"; menus := ["Rice"];
                          calorie := 700; time := "dinner" |}) = Ok out ∧
     getitem out "date" = Ok (PyStr "2024-11-20")) ∧
  (∃ out,
     normalize_item 2025 "학생_식당" (PyDict Scenario.entry_without_calorie)
     = Ok out ∧
     getitem out "date" = Ok (PyStr "2025-03-04")).
Proof.
  split.
  - apply (proj2 C5_date_is_year_dash_date); [reflexivity|].
    split; by eexists.
  - eexists. split; [reflexivity|].
    apply (proj1 C5_date_is_year_dash_date 2025 "학생_식당"
             Scenario.entry_without_calorie "03-04"); reflexivity.
Defined.

(** ** Order and length *)

(** C6: when every entry of a validated extraction has a weekday and a
    meal time of the tables, the loop ends normally; and whenever it does,
    its output has as many entries as [items], the [k]th of them being what
    the body makes of the [k]th item. *)
Theorem C6_output_keeps_length_and_order year w :
  (Forall valid_entry (items w) → ∃ out, output_for_save year w = Ok out) ∧
  (∀ out, output_for_save year w = Ok out →
     length out = length (items w) ∧
     ∀ k d, items w !! k = Some d →
       ∃ i j, dict_get (day d) weekday_to_index = Some i ∧
              dict_get (time d) time_to_index = Some j ∧
              out !! k = Some (normalized_entry year (restaurant_name w) d i j)).
Proof.
  split.
  - intros Hvalid.
    cut (∃ out, Forall2 (λ d o, normalize_item year (restaurant_name w)
                                  (dump_DailyMenu d) = Ok o) (items w) out).
    { intros [out H]. exists out. by apply output_for_save_Ok. }
    induction Hvalid as [|d ds [[i Hi] [j Hj]] _ [out IH]].
    + exists []. constructor.
    + eexists (_ :: out). constructor; [|done].
      by rewrite normalize_item_dump, Hi, Hj.
  - intros out H. apply output_for_save_Ok in H. split.
    + symmetry. by eapply Forall2_length.
    + intros k d Hk.
      destruct (Forall2_lookup_l _ _ _ _ _ H Hk) as (o & Ho & Hitem).
      rewrite normalize_item_dump in Hitem.
      destruct (dict_get (day d) weekday_to_index) as [i|]; [|done].
      destruct (dict_get (time d) time_to_index) as [j|]; [|done].
      injection Hitem as <-. by exists i, j.
Qed.

Lemma C6_witness :
  ∃ out,
    output_for_save 2025 Scenario.two_days = Ok out ∧
    length out = 2%nat ∧
    out !! 0%nat
    = Some (normalized_entry 2025 "학생_식당"
              {| date := "03-05"; day := "Wed"; menus := ["Noodles"];
                 calorie := 650; time := "dinner" |} 3 3).
Proof.
  destruct (proj1 (C6_output_keeps_length_and_order 2025 Scenario.two_days))
    as [out Hout].
  { repeat constructor; by eexists. }
  exists out. split; [done|].
  destruct (proj2 (C6_output_keeps_length_and_order 2025 Scenario.two_days)
              out Hout) as [Hlen Hk].
  split; [done|].
  destruct (Hk 0%nat _ eq_refl) as (i & j & Hi & Hj & ->).
  injection Hi as <-. by injection Hj as <-.
Defined.

(** ** Paths *)

Lemma no_slash_cons c s :
  no_slash (String c s) ↔ Ascii.eqb c "/" = false ∧ no_slash s.
Proof.
  unfold no_slash. simpl. rewrite not_elem_of_cons, Ascii.eqb_neq.
  split; intros [H1 H2]; split; congruence.
Qed.

Lemma no_slash_app s t : no_slash (s +:+ t) ↔ no_slash s ∧ no_slash t.
Proof.
  induction s as [|c s IH].
  - change ("" +:+ t) with t. unfold no_slash at 2. simpl.
    rewrite elem_of_nil. tauto.
  - change (String c s +:+ t) with (String c (s +:+ t)).
    rewrite !no_slash_cons, IH. tauto.
Qed.

Lemma no_slash_nil : no_slash "".
Proof. unfold no_slash. simpl. apply not_elem_of_nil. Qed.

Lemma no_slash_digits (u : Decimal.uint) : no_slash (NilEmpty.string_of_uint u).
Proof.
  induction u; simpl; [apply no_slash_nil|by apply no_slash_cons..].
Qed.

Lemma no_slash_of_uint (u : Decimal.uint) : no_slash (NilZero.string_of_uint u).
Proof.
  destruct u; try apply (no_slash_digits (_ _)).
  apply no_slash_cons. split; [done|apply no_slash_nil].
Qed.

Lemma no_slash_str_of_int z : no_slash (str_of_int z).
Proof.
  unfold str_of_int. destruct (Z.to_int z) as [u|u]; simpl.
  - apply no_slash_of_uint.
  - apply no_slash_cons. split; [done|apply no_slash_of_uint].
Qed.

Lemma split_slash_no_slash s : no_slash s → split_slash s = [s].
Proof.
  induction s as [|c s IH]; [done|].
  rewrite no_slash_cons. intros [Hc Hs]. simpl. by rewrite Hc, IH.
Qed.

Lemma save_file_name_component year rn sd :
  is_component (save_file_name year rn sd) = true.
Proof.
  unfold save_file_name, is_component.
  destruct rn as [|c rn]; [done|].
  set (rest := "_" +:+ _).
  change (String c rn +:+ rest) with (String c (rn +:+ rest)).
  cbn [String.eqb negb andb].
  destruct (Ascii.eqb c "."); [|done]. by destruct rn.
Qed.

Lemma split_slash_nonempty s : split_slash s ≠ [].
Proof.
  destruct s as [|c s]; [done|]. simpl.
  destruct (Ascii.eqb c "/"); [done|]. by destruct (split_slash s).
Qed.

Lemma concat_split_slash s : String.concat "/" (split_slash s) = s.
Proof.
  induction s as [|c s IH]; [done|]. simpl.
  destruct (Ascii.eqb c "/") eqn:Hc.
  - apply Ascii.eqb_eq in Hc as ->.
    pose proof (split_slash_nonempty s).
    destruct (split_slash s) as [|p ps]; [done|]. simpl in *. by rewrite IH.
  - destruct (split_slash s) as [|p [|p' ps]]; simpl in *; by rewrite <- IH.
Qed.

Lemma root_of_proper s : proper_components s → root_of s = "".
Proof.
  unfold proper_components, root_of.
  destruct s as [|c s]; [done|]. simpl.
  destruct (Ascii.eqb c "/"); [|done].
  intros H. by apply Forall_cons in H as [? _].
Qed.

Lemma filter_proper s :
  proper_components s → List.filter is_component (split_slash s) = split_slash s.
Proof.
  unfold proper_components. induction 1 as [|p ps Hp _ IH]; [done|].
  simpl. by rewrite Hp, IH.
Qed.

Lemma no_slash_proper year rn sd :
  no_slash rn → no_slash sd → proper_components (save_file_name year rn sd).
Proof.
  intros Hrn Hsd. unfold proper_components.
  rewrite split_slash_no_slash.
  - constructor; [apply save_file_name_component|constructor].
  - unfold save_file_name. rewrite !no_slash_app.
    split_and!; try done; try apply no_slash_str_of_int;
      unfold no_slash; by apply (bool_decide_unpack _).
Qed.

(** Where parsing drops nothing of the file name, the target is the file
    name with [menus/] before it. *)
Lemma final_path_proper year w :
  proper_components (save_file_name year (restaurant_name w) (start_date w)) →
  final_path year w
  = "menus/" +:+ save_file_name year (restaurant_name w) (start_date w).
Proof.
  intros Hname. unfold final_path.
  set (name := save_file_name year (restaurant_name w) (start_date w)) in *.
  unfold mkPath at 2. rewrite root_of_proper, filter_proper by done.
  unfold path_div, path_str. simpl.
  pose proof (split_slash_nonempty name) as Hne.
  pose proof (concat_split_slash name) as Hcat.
  destruct (split_slash name) as [|p ps]; [done|]. by rewrite Hcat.
Qed.

(** ** Serialization *)

(** The layout of a dump: two spaces a level, one member a line. *)
Example dumps_layout :
  dumps (PyList [PyDict [("day", PyInt 1); ("menus", PyList [PyStr "Rice"])];
                 PyDict []])
  = String.concat (String newline "")
      ["[";
       "  {";
       "    " +:+ encode_str "day" +:+ ": 1,";
       "    " +:+ encode_str "menus" +:+ ": [";
       "      " +:+ encode_str "Rice";
       "    ]";
       "  },";
       "  {}";
       "]"].
Proof. by vm_compute. Qed.

(** ** The script, stage by stage *)

Lemma persist_unfold E w fs :
  persist E w fs =
    let path := final_path (now_year E) w in
    match fs !! path with
    | Some _ => (Raise AssertionError, fs)
    | None =>
        if can_create E path then
          match output_for_save (now_year E) w with
          | Ok out => (Ok (), <[path := dumps (PyList out)]> fs)
          | Raise e => (Raise e, <[path := ""]> fs)
          end
        else (Raise OSError, fs)
    end.
Proof.
  unfold persist, mbind, io_bind, assert_not_exists, open_w, lift, write.
  cbv zeta. destruct (fs !! final_path (now_year E) w); [done|].
  destruct (can_create E _); [|done].
  destruct (output_for_save (now_year E) w) as [out|e]; [|done].
  by rewrite lookup_insert_eq, insert_insert_eq.
Qed.

Lemma main_unfold lax E fs :
  main lax E fs =
    match environ E !! "GEMINI_API_KEY" with
    | None => (Raise KeyError, fs)
    | Some api_key =>
        if String.eqb api_key "" then (Raise ValueError, fs)
        else
          match environ E !! "IMAGE_URL" with
          | None => (Raise KeyError, fs)
          | Some image_url =>
              match fetch_image E image_url with
              | Raise e => (Raise e, fs)
              | Ok image_data =>
                  match generate_content E api_key image_data with
                  | None => (Raise APIError, fs)
                  | Some text =>
                      match model_validate_json lax text with
                      | Raise e => (Raise e, fs)
                      | Ok w => persist E w fs
                      end
                  end
              end
          end
    end.
Proof.
  unfold main, mbind, io_bind, lift, request_extraction, of_option,
    genai_client.
  destruct (environ E !! "GEMINI_API_KEY") as [k|]; [|done].
  destruct (String.eqb k ""); [done|].
  destruct (environ E !! "IMAGE_URL"); [|done].
  destruct (fetch_image E _); [|done].
  destruct (generate_content E _ _); [|done].
  by destruct (model_validate_json lax _).
Qed.

(** A run that ends normally has validated an answer and persisted it. *)
Lemma main_Ok lax E fs fs' :
  main lax E fs = (Ok (), fs') →
  ∃ api_key image_url image_data text w,
    environ E !! "GEMINI_API_KEY" = Some api_key ∧
    environ E !! "IMAGE_URL" = Some image_url ∧
    fetch_image E image_url = Ok image_data ∧
    generate_content E api_key image_data = Some text ∧
    model_validate_json lax text = Ok w ∧
    persist E w fs = (Ok (), fs').
Proof.
  rewrite main_unfold.
  destruct (environ E !! "GEMINI_API_KEY") as [k|]; [|done].
  destruct (String.eqb k ""); [done|].
  destruct (environ E !! "IMAGE_URL") as [u|]; [|done].
  destruct (fetch_image E u) as [img|] eqn:?; [|done].
  destruct (generate_content E k img) as [t|] eqn:?; [|done].
  destruct (model_validate_json lax t) as [w|] eqn:?; [|done].
  intros. by exists k, u, img, t, w.
Qed.

Lemma persist_Ok E w fs fs' :
  persist E w fs = (Ok (), fs') →
  ∃ out, output_for_save (now_year E) w = Ok out ∧
         fs !! final_path (now_year E) w = None ∧
         fs' = <[final_path (now_year E) w := dumps (PyList out)]> fs.
Proof.
  rewrite persist_unfold. cbv zeta.
  destruct (fs !! final_path (now_year E) w); [done|].
  destruct (can_create E _); [|done].
  destruct (output_for_save (now_year E) w) as [out|e]; [|done].
  intros [= <-]. by exists out.
Qed.

(** In the scenario everything up to validation goes well. *)
Lemma scenario_main status doc w fs :
  validate_WeeklyMenu Scenario.no_lax doc = Some w →
  Scenario.run (Scenario.env status doc) fs
  = persist (Scenario.env status doc) w fs.
Proof.
  intros Hw. unfold Scenario.run. rewrite main_unfold.
  replace (environ (Scenario.env status doc) !! "GEMINI_API_KEY")
    with (Some "key") by (by vm_compute).
  cbn [String.eqb Ascii.eqb].
  replace (environ (Scenario.env status doc) !! "IMAGE_URL")
    with (Some Scenario.image_url) by (by vm_compute).
  replace (fetch_image (Scenario.env status doc) Scenario.image_url)
    with (@Ok string Scenario.image_bytes) by (by vm_compute).
  unfold model_validate_json. simpl. by rewrite Hw.
Qed.

(** Evaluates a run of the scenario that starts without files, leaving the
    file system as an insertion into the empty one. *)
Ltac scenario_from_empty :=
  erewrite scenario_main by (vm_compute; reflexivity);
  rewrite persist_unfold; cbv zeta; rewrite lookup_empty;
  cbn [can_create Scenario.env now_year];
  let p := fresh "p" in
  set (p := final_path _ _); vm_compute in p; subst p;
  let o := fresh "o" in
  set (o := output_for_save _ _); vm_compute in o; subst o;
  cbv iota; rewrite insert_empty.

(** The scenario of the specification with 0 for the calorie: one file is
    written, holding the dump of the one normalized entry. *)
Example scenario_run :
  Scenario.run
    (Scenario.env 200 (Scenario.answer "학생_식당" [Scenario.entry "Mon" (JInt 0)]))
    ∅
  = (Ok (),
     {[ "menus/학생_식당_2025-03-04.json" :=
          dumps (PyList [PyDict [("date", PyStr "2025-03-04");
                                 ("day", PyInt 1);
                                 ("menus", PyList [PyStr "Rice"; PyStr "Soup"]);
                                 ("calorie", PyInt 0);
                                 ("time", PyInt 2);
                                 ("restaurant_name", PyStr "학생_식당")]]) ]}).
Proof. scenario_from_empty. reflexivity. Qed.

(** ** Validation *)

Section ValidationFacts.
Variable lax : json -> option Z.

Lemma validate_DailyMenu_calorie v d :
  validate_DailyMenu lax v = Some d →
  ∃ o c, v = JObj o ∧ o !! "calorie" = Some c ∧ c ≠ JNull ∧
         validate_int lax c = Some (calorie d).
Proof.
  destruct v as [| | | | | |o]; try done. unfold validate_DailyMenu, required.
  intros H. simplify_option_eq. eexists o, _. split_and!; try done.
  intros ->. done.
Qed.

Lemma validate_WeeklyMenu_items v w :
  validate_WeeklyMenu lax v = Some w →
  ∃ o l, v = JObj o ∧ o !! "items" = Some (JArr l) ∧
         Forall2 (λ x d, validate_DailyMenu lax x = Some d) l (items w).
Proof.
  destruct v as [| | | | | |o]; try done. unfold validate_WeeklyMenu, required.
  intros H. simplify_option_eq.
  match goal with H : validate_list _ ?x = Some _ |- _ =>
    destruct x; try done; simpl in H; apply mapM_Some in H end.
  by eexists o, _.
Qed.

End ValidationFacts.

Section CalorieFacts.
Variable lax : json -> option Z.

Lemma validate_DailyMenu_no_calorie o :
  o !! "calorie" = None ∨ o !! "calorie" = Some JNull →
  validate_DailyMenu lax (JObj o) = None.
Proof.
  intros H. destruct (validate_DailyMenu lax (JObj o)) as [d|] eqn:Hd; [|done].
  apply validate_DailyMenu_calorie in Hd as (o' & c & [= <-] & Hc & Hnull & _).
  destruct H; congruence.
Qed.

Lemma lacks_calorie_rejected doc :
  lacks_calorie doc → model_validate_json lax (Some doc) = Raise ValidationError.
Proof.
  intros (top & l & o & -> & Hitems & Ho & Hc).
  unfold model_validate_json.
  change (Some (JObj top) ≫= validate_WeeklyMenu lax)
    with (validate_WeeklyMenu lax (JObj top)).
  destruct (validate_WeeklyMenu lax (JObj top)) as [w|] eqn:Hw; [|done].
  apply validate_WeeklyMenu_items in Hw as (top' & l' & [= <-] & Hl & Hall).
  rewrite Hitems in Hl. injection Hl as <-.
  apply list_elem_of_lookup in Ho as [k Hk].
  destruct (Forall2_lookup_l _ _ _ _ _ Hall Hk) as (d & _ & Hd).
  by rewrite validate_DailyMenu_no_calorie in Hd.
Qed.

(** The run ends there, with the file system as it was. *)
Lemma main_lacks_calorie E fs api_key image_url image_data doc :
  environ E !! "GEMINI_API_KEY" = Some api_key →
  api_key ≠ "" →
  environ E !! "IMAGE_URL" = Some image_url →
  fetch_image E image_url = Ok image_data →
  generate_content E api_key image_data = Some (Some doc) →
  lacks_calorie doc →
  main lax E fs = (Raise ValidationError, fs).
Proof.
  intros Hk Hkey Hu Himg Hgen Hdoc.
  rewrite main_unfold, Hk, (proj2 (String.eqb_neq _ _) Hkey), Hu, Himg, Hgen.
  by rewrite lacks_calorie_rejected.
Qed.

End CalorieFacts.

(** ** Calories *)

(** C9: validation rejects an item without calorie or with a null one, and
    with it the whole answer, and the run, the client having taken the key,
    then ends with the validation error before anything is written; so every
    dictionary that the loop receives from a validated answer holds an
    integer under "calorie", never None. *)
Theorem C9_calorie_is_required_and_never_None lax :
  (∀ o, o !! "calorie" = None ∨ o !! "calorie" = Some JNull →
        validate_DailyMenu lax (JObj o) = None) ∧
  (∀ doc, lacks_calorie doc →
          model_validate_json lax (Some doc) = Raise ValidationError) ∧
  (∀ E fs api_key image_url image_data doc,
     environ E !! "GEMINI_API_KEY" = Some api_key →
     api_key ≠ "" →
     environ E !! "IMAGE_URL" = Some image_url →
     fetch_image E image_url = Ok image_data →
     generate_content E api_key image_data = Some (Some doc) →
     lacks_calorie doc →
     main lax E fs = (Raise ValidationError, fs)) ∧
  (∀ text w todo,
     model_validate_json lax text = Ok w →
     getitem (model_dump w) "items" ≫= py_iter = Ok todo →
     Forall (λ daily_menu, ∃ z, getitem daily_menu "calorie" = Ok (PyInt z)) todo).
Proof.
  split_and!.
  - apply validate_DailyMenu_no_calorie.
  - apply lacks_calorie_rejected.
  - intros. by eapply main_lacks_calorie.
  - intros text w todo _ [= <-]. apply Forall_fmap, Forall_true.
    intros d. by exists (calorie d).
Qed.

Lemma C9_witness :
  Scenario.run
    (Scenario.env 200 (Scenario.answer "학생_식당" [Scenario.entry "Mon" JNull])) ∅
  = (Raise ValidationError, ∅).
Proof.
  eapply (proj1 (proj2 (proj2 (C9_calorie_is_required_and_never_None _))));
    try reflexivity; [discriminate|].
  eexists _, _, _. split_and!; [reflexivity|reflexivity|apply list_elem_of_here|].
  right. reflexivity.
Defined.

(** ** The collision guard and the target path *)

(** C2 (as amended): the target is [menus] joined, as paths are, with the
    file name {restaurant_name}_{year}-{start_date}.json, the start date
    being the one of the answer, without a year of its own.  Where no
    component of that file name is empty or ".", and so where the restaurant
    name and the start date hold no slash, the target is the text
    menus/{restaurant_name}_{year}-{start_date}.json.  When a file is at the
    target already, the writer raises AssertionError and the file system,
    and so the bytes of that file, stay as they were. *)
Theorem C2_path_and_collision_guard :
  (∀ year w,
     proper_components
       (restaurant_name w +:+ "_" +:+ str_of_int year +:+ "-"
        +:+ start_date w +:+ ".json") →
     final_path year w
     = "menus/" +:+ restaurant_name w +:+ "_" +:+ str_of_int year +:+ "-"
       +:+ start_date w +:+ ".json") ∧
  (∀ year w,
     no_slash (restaurant_name w) → no_slash (start_date w) →
     final_path year w
     = "menus/" +:+ restaurant_name w +:+ "_" +:+ str_of_int year +:+ "-"
       +:+ start_date w +:+ ".json") ∧
  (∀ E w fs,
     is_Some (fs !! final_path (now_year E) w) →
     persist E w fs = (Raise AssertionError, fs)).
Proof.
  split_and!.
  - intros year w Hname. by rewrite final_path_proper.
  - intros year w Hrn Hsd. rewrite final_path_proper; [done|].
    by apply no_slash_proper.
  - intros E w fs [old Hold]. by rewrite persist_unfold; cbv zeta; rewrite Hold.
Qed.

Lemma C2_witness :
  final_path 2025
    {| items := []; restaurant_name := "학생_식당"; start_date := "03-04";
       end_date := "03-08" |}
  = "menus/학생_식당_2025-03-04.json" ∧
  final_path 2025
    {| items := []; restaurant_name := "학생_식당"; start_date := "03/04";
       end_date := "03/08" |}
  = "menus/학생_식당_2025-03/04.json" ∧
  persist (Scenario.env 200 JNull)
    {| items := []; restaurant_name := "학생_식당"; start_date := "03-04";
       end_date := "03-08" |}
    {[ "menus/학생_식당_2025-03-04.json" := "[]" ]}
  = (Raise AssertionError, {[ "menus/학생_식당_2025-03-04.json" := "[]" ]}).
Proof.
  split_and!.
  - apply (proj1 (proj2 C2_path_and_collision_guard) 2025
             {| items := []; restaurant_name := "학생_식당";
                start_date := "03-04"; end_date := "03-08" |});
      apply (bool_decide_unpack _); by vm_compute.
  - apply (proj1 C2_path_and_collision_guard 2025
             {| items := []; restaurant_name := "학생_식당";
                start_date := "03/04"; end_date := "03/08" |}).
    apply (bool_decide_unpack _). by vm_compute.
  - apply (proj2 (proj2 C2_path_and_collision_guard)).
    exists "[]". by vm_compute.
Defined.

(** A restaurant name that starts with a slash: the file name is an
    absolute path, and joining it to [menus] gives that path. *)
Lemma C2_counterexample :
  final_path 2025
    {| items := []; restaurant_name := "/srv/www"; start_date := "03-04";
       end_date := "03-08" |}
  = "/srv/www_2025-03-04.json" ∧
  final_path 2025
    {| items := []; restaurant_name := "/srv/www"; start_date := "03-04";
       end_date := "03-08" |}
  ≠ "menus/" +:+ "/srv/www" +:+ "_" +:+ str_of_int 2025 +:+ "-" +:+ "03-04"
    +:+ ".json".
Proof. split; [by vm_compute|]. by vm_compute. Qed.

(** ** All or nothing *)

(** Once the file is open, an exception of the loop leaves it behind,
    empty. *)
Lemma persist_Raise_after_open E w fs e :
  fs !! final_path (now_year E) w = None →
  can_create E (final_path (now_year E) w) = true →
  output_for_save (now_year E) w = Raise e →
  persist E w fs = (Raise e, <[final_path (now_year E) w := ""]> fs).
Proof.
  intros Hfs Hcreate Hout.
  by rewrite persist_unfold; cbv zeta; rewrite Hfs, Hcreate, Hout.
Qed.

(** C1: an answer that validates, with "Monday" for a day.  The run ends
    with KeyError, and where there was no file there now is an empty one. *)
Theorem C1_failed_run_leaves_an_empty_file :
  Scenario.run
    (Scenario.env 200
       (Scenario.answer "학생_식당" [Scenario.entry "Monday" (JInt 0)])) ∅
  = (Raise KeyError, {[ "menus/학생_식당_2025-03-04.json" := "" ]}).
Proof. scenario_from_empty. reflexivity. Qed.

(** ** The restaurant name *)

(** C7: after a run that ends normally, the file at the target holds the
    dump of a list of entries, one per item of the validated answer, each
    with the answer's restaurant name under "restaurant_name"; when that
    name is the Halal one, each entry has it and not the name of the
    dormitory dining hall. *)
Theorem C7_entries_carry_the_weekly_restaurant_name lax E fs fs' :
  main lax E fs = (Ok (), fs') →
  ∃ api_key image_data text w out,
    generate_content E api_key image_data = Some text ∧
    model_validate_json lax text = Ok w ∧
    fs' !! final_path (now_year E) w = Some (dumps (PyList out)) ∧
    length out = length (items w) ∧
    Forall (λ o, getitem o "restaurant_name" = Ok (PyStr (restaurant_name w)))
      out ∧
    (restaurant_name w = dormitory_halal →
     Forall (λ o, getitem o "restaurant_name" = Ok (PyStr dormitory_halal) ∧
                  getitem o "restaurant_name" ≠ Ok (PyStr dormitory)) out).
Proof.
  intros H.
  apply main_Ok in H as (k & u & img & text & w & _ & _ & _ & Hgen & Hw & H).
  apply persist_Ok in H as (out & Hout & _ & ->).
  exists k, img, text, w, out. split_and!; try done.
  - apply lookup_insert_eq.
  - apply output_for_save_Ok in Hout. symmetry. by eapply Forall2_length.
  - apply output_for_save_Ok in Hout.
    induction Hout as [|d o ds os Ho _ IH]; constructor; [|done].
    apply normalize_item_inv in Ho
      as (d0 & d' & ? & ? & ? & ? & ? & _ & -> & _ & _ & _ & _ & _ & _ & _
          & Hrn & _).
    unfold getitem. unfold_result. simpl. by rewrite Hrn.
  - intros Hhalal. apply output_for_save_Ok in Hout. rewrite Hhalal in Hout.
    induction Hout as [|d o ds os Ho _ IH]; constructor; [|done].
    apply normalize_item_inv in Ho
      as (d0 & d' & ? & ? & ? & ? & ? & _ & -> & _ & _ & _ & _ & _ & _ & _
          & Hrn & _).
    unfold getitem. unfold_result. simpl. rewrite Hrn. split; [done|].
    by intros [=].
Qed.

Lemma C7_witness :
  ∃ w out,
    snd (Scenario.run
           (Scenario.env 200
              (Scenario.answer dormitory_halal [Scenario.entry "Mon" (JInt 0)]))
           ∅)
    !! final_path 2025 w = Some (dumps (PyList out)) ∧
    Forall (λ o, getitem o "restaurant_name" = Ok (PyStr dormitory_halal) ∧
                 getitem o "restaurant_name" ≠ Ok (PyStr dormitory)) out.
Proof.
  set (E := Scenario.env 200
              (Scenario.answer dormitory_halal [Scenario.entry "Mon" (JInt 0)])).
  assert (Hfst : fst (Scenario.run E ∅) = Ok ()) by (by vm_compute).
  assert (Hrun : main Scenario.no_lax E ∅ = (Ok (), snd (Scenario.run E ∅))).
  { unfold Scenario.run in *. destruct (main Scenario.no_lax E ∅) as [r fs'].
    simpl in Hfst. by rewrite Hfst. }
  destruct (C7_entries_carry_the_weekly_restaurant_name _ _ _ _ Hrun)
    as (k & img & text & w & out & Hgen & Hw & Hfile & _ & _ & Hhalal).
  exists w, out. split; [exact Hfile|].
  apply Hhalal. injection Hgen as <-. vm_compute in Hw. by injection Hw as <-.
Defined.

(** ** The image fetcher *)

(** C8 (as amended): the fetcher raises when the request itself raises and
    when the body of the response is not identified as an image, and the
    run, which gets to the fetcher when both variables are set and the
    client has taken the key, then ends with that exception and the file
    system as it was; a response whose body is an image is passed on,
    whatever its status. *)
Theorem C8_fetch_fails_without_response_or_image E image_url :
  (requests_get E image_url = None →
   fetch_image E image_url = Raise RequestException) ∧
  (∀ r, requests_get E image_url = Some r →
        image_open E (content r) = false →
        fetch_image E image_url = Raise UnidentifiedImageError) ∧
  (∀ r, requests_get E image_url = Some r →
        image_open E (content r) = true →
        fetch_image E image_url = Ok (content r)) ∧
  (∀ lax fs api_key e,
     environ E !! "GEMINI_API_KEY" = Some api_key →
     api_key ≠ "" →
     environ E !! "IMAGE_URL" = Some image_url →
     fetch_image E image_url = Raise e →
     main lax E fs = (Raise e, fs)).
Proof.
  unfold fetch_image. unfold_result. split_and!.
  - by intros ->.
  - by intros r -> ->.
  - by intros r -> ->.
  - intros lax fs k e Hk Hkey Hu He.
    rewrite main_unfold, Hk, (proj2 (String.eqb_neq _ _) Hkey), Hu.
    unfold fetch_image. unfold_result.
    by rewrite He.
Qed.

Lemma C8_witness :
  fetch_image (Scenario.env 200 JNull) "https://example.org/other.png"
  = Raise RequestException ∧
  fetch_image (Scenario.env 503 JNull) Scenario.image_url
  = Ok Scenario.image_bytes.
Proof.
  split.
  - by apply (proj1 (C8_fetch_fails_without_response_or_image _ _)).
  - by apply (proj1 (proj2 (proj2
           (C8_fetch_fails_without_response_or_image (Scenario.env 503 JNull)
              Scenario.image_url)))
           {| status_code := 503; content := Scenario.image_bytes |}).
Defined.

(** A response "404 Not Found" whose body is an image: the fetcher returns
    the image and the run goes on to extraction and writes the menu. *)
Lemma C8_counterexample :
  requests_get
    (Scenario.env 404
       (Scenario.answer "학생_식당" [Scenario.entry "Mon" (JInt 0)]))
    Scenario.image_url
  = Some {| status_code := 404; content := Scenario.image_bytes |} ∧
  fetch_image
    (Scenario.env 404
       (Scenario.answer "학생_식당" [Scenario.entry "Mon" (JInt 0)]))
    Scenario.image_url
  = Ok Scenario.image_bytes ∧
  fst (Scenario.run
         (Scenario.env 404
            (Scenario.answer "학생_식당" [Scenario.entry "Mon" (JInt 0)])) ∅)
  = Ok ().
Proof. split_and!; by vm_compute. Qed.

(** ** The end date *)

(** C10: two validated answers that differ in [end_date] only have the
    same target path, and the writer does the same on them: same outcome,
    same file system afterwards. *)
Theorem C10_end_date_is_never_used E its rn sd ed ed' fs :
  final_path (now_year E)
    {| items := its; restaurant_name := rn; start_date := sd; end_date := ed |}
  = final_path (now_year E)
      {| items := its; restaurant_name := rn; start_date := sd;
         end_date := ed' |} ∧
  persist E
    {| items := its; restaurant_name := rn; start_date := sd; end_date := ed |}
    fs
  = persist E
      {| items := its; restaurant_name := rn; start_date := sd;
         end_date := ed' |} fs.
Proof.
  split; [done|]. rewrite !persist_unfold.
  by rewrite !output_for_save_unfold.
Qed.


(** * More of the script *)

(** ** The loop, on validated entries *)

Lemma valid_entry_dec d : {valid_entry d} + {¬ valid_entry d}.
Proof.
  unfold valid_entry.
  destruct (dict_get (day d) weekday_to_index) as [i|];
    destruct (dict_get (time d) time_to_index) as [j|];
    try (left; split; by eexists);
    right; intros [[? ?] [? ?]]; done.
Defined.

Lemma normalize_item_dump_Ok year rn d o :
  normalize_item year rn (dump_DailyMenu d) = Ok o ↔
  ∃ i j, dict_get (day d) weekday_to_index = Some i ∧
         dict_get (time d) time_to_index = Some j ∧
         o = normalized_entry year rn d i j.
Proof.
  rewrite normalize_item_dump.
  destruct (dict_get (day d) weekday_to_index) as [i|];
    [destruct (dict_get (time d) time_to_index) as [j|]|].
  - split; [intros [= <-]; by exists i, j|].
    by intros (? & ? & [= <-] & [= <-] & ->).
  - split; [done|]. by intros (? & ? & _ & ? & _).
  - split; [done|]. by intros (? & ? & ? & _).
Qed.

Lemma normalize_item_dump_Raise year rn d e :
  normalize_item year rn (dump_DailyMenu d) = Raise e ↔
  e = KeyError ∧ ¬ valid_entry d.
Proof.
  rewrite normalize_item_dump. unfold valid_entry.
  destruct (dict_get (day d) weekday_to_index) as [i|];
    [destruct (dict_get (time d) time_to_index) as [j|]|].
  - split; [done|]. intros [_ H]. destruct H; split; by eexists.
  - split; [intros [= <-]; split; [done|]; by intros [_ [? ?]]|by intros [-> _]].
  - split; [intros [= <-]; split; [done|]; by intros [[? ?] _]|by intros [-> _]].
Qed.

Lemma output_for_save_of_valid year w :
  Forall valid_entry (items w) → ∃ out, output_for_save year w = Ok out.
Proof.
  intros Hvalid.
  cut (∃ out, Forall2 (λ d o, normalize_item year (restaurant_name w)
                                (dump_DailyMenu d) = Ok o) (items w) out).
  { intros [out H]. exists out. by apply output_for_save_Ok. }
  induction Hvalid as [|d ds [[i Hi] [j Hj]] _ [out IH]].
  - exists []. constructor.
  - eexists (_ :: out). constructor; [|done].
    apply normalize_item_dump_Ok. by exists i, j.
Qed.

Lemma output_for_save_valid year w out :
  output_for_save year w = Ok out → Forall valid_entry (items w).
Proof.
  rewrite output_for_save_Ok. induction 1 as [|d o ds os Ho _ IH]; [done|].
  constructor; [|done].
  apply normalize_item_dump_Ok in Ho as (i & j & Hi & Hj & _).
  split; by eexists.
Qed.

Lemma output_for_save_Raise year w e :
  output_for_save year w = Raise e ↔
  e = KeyError ∧
  ∃ good bad rest, items w = good ++ bad :: rest ∧
                   Forall valid_entry good ∧ ¬ valid_entry bad.
Proof.
  rewrite output_for_save_unfold, normalize_loop_Raise. split.
  - intros (dn & x & rest & Heq & Hdn & Hx).
    apply fmap_app_inv in Heq as (good & tl & -> & Htl & ->).
    symmetry in Htl. apply fmap_cons_inv in Htl as (bad & rest' & -> & -> & ->).
    apply normalize_item_dump_Raise in Hx as [-> Hbad]. split; [done|].
    exists good, bad, rest'. split_and!; [done| |done].
    rewrite Forall_fmap in Hdn. eapply Forall_impl; [exact Hdn|].
    intros d [o Ho]. simpl in Ho.
    apply normalize_item_dump_Ok in Ho as (i & j & Hi & Hj & _).
    split; by eexists.
  - intros (-> & good & bad & rest & Heq & Hgood & Hbad).
    exists (dump_DailyMenu <$> good), (dump_DailyMenu bad),
           (dump_DailyMenu <$> rest).
    split_and!.
    + by rewrite Heq, fmap_app.
    + apply Forall_fmap. eapply Forall_impl; [exact Hgood|].
      intros d [[i Hi] [j Hj]]. eexists. simpl.
      apply normalize_item_dump_Ok. by exists i, j.
    + by apply normalize_item_dump_Raise.
Qed.

(** X6: on a validated answer the loop ends normally exactly when every
    entry has a day and a time of the tables; otherwise it raises KeyError,
    and no other exception, at the first entry that has not, whatever comes
    after it. *)
Theorem X6_loop_ends_normally_iff_all_entries_valid year w :
  ((∃ out, output_for_save year w = Ok out) ↔ Forall valid_entry (items w)) ∧
  (∀ e, output_for_save year w = Raise e → e = KeyError) ∧
  (∀ good bad rest,
     items w = good ++ bad :: rest →
     Forall valid_entry good → ¬ valid_entry bad →
     output_for_save year w = Raise KeyError).
Proof.
  split_and!.
  - split; [intros [out H]; by eapply output_for_save_valid
           |apply output_for_save_of_valid].
  - intros e H. by apply output_for_save_Raise in H as [-> _].
  - intros good bad rest Heq Hgood Hbad. apply output_for_save_Raise.
    split; [done|]. by exists good, bad, rest.
Qed.

Lemma X6_witness :
  output_for_save 2025 Cases.second_day_unknown = Raise KeyError.
Proof.
  apply (proj2 (proj2 (X6_loop_ends_normally_iff_all_entries_valid 2025
                         Cases.second_day_unknown))
           [ {| date := "03-04"; day := "Mon"; menus := ["Rice"];
                calorie := 0; time := "lunch" |} ]
           {| date := "03-05"; day := "Tuesday"; menus := ["Soup"];
              calorie := 0; time := "lunch" |}
           [ {| date := "03-06"; day := "Wed"; menus := [];
                calorie := 0; time := "supper" |} ]).
  - reflexivity.
  - repeat constructor; by eexists.
  - intros [[i Hi] _]. by vm_compute in Hi.
Defined.

(** ** The loop body, on any dictionary *)

Section DictKeys.
Context {V : Type}.
Implicit Types (d : list (string * V)) (k : string) (v : V).

Lemma dict_set_keys_Some k v d :
  is_Some (dict_get k d) → (dict_set k v d).*1 = d.*1.
Proof.
  induction d as [|[k' v'] d IH]; [by intros [? ?]|].
  cbn [dict_get dict_set]. destruct (String.eqb k' k) eqn:Hk.
  - by apply String.eqb_eq in Hk as ->.
  - intros H. by rewrite !fmap_cons, IH.
Qed.

Lemma dict_set_keys_None k v d :
  dict_get k d = None → (dict_set k v d).*1 = d.*1 ++ [k].
Proof.
  induction d as [|[k' v'] d IH]; [done|].
  cbn [dict_get dict_set]. destruct (String.eqb k' k) eqn:Hk; [done|].
  intros H. by rewrite !fmap_cons, IH.
Qed.

Lemma dict_get_set_is_Some k k' v d :
  is_Some (dict_get k' d) → is_Some (dict_get k' (dict_set k v d)).
Proof.
  intros H. destruct (decide (k = k')) as [->|Hne].
  - rewrite dict_get_set_eq. by eexists.
  - by rewrite dict_get_set_ne.
Qed.

End DictKeys.

(** X7: the loop body assigns to "calorie" (when it is None), "date",
    "restaurant_name", "day" and "time" and to nothing else: every other
    key of the entry, "menus" among them, keeps its value, and the keys keep
    their order, "restaurant_name" being added at the end unless the entry
    had it. *)
Theorem X7_loop_body_leaves_the_other_keys year rn d out :
  normalize_item year rn (PyDict d) = Ok out →
  ∃ d', out = PyDict d' ∧
        (∀ k, k ∉ assigned_keys → dict_get k d' = dict_get k d) ∧
        d'.*1 = d.*1 ++ match dict_get "restaurant_name" d with
                        | Some _ => []
                        | None => ["restaurant_name"]
                        end.
Proof.
  unfold normalize_item. unfold_result. simpl.
  destruct (dict_get "calorie" d) as [c|] eqn:Hc; [|discriminate].
  set (d1 := match c with PyNone => dict_set "calorie" (PyInt 0) d | _ => d end).
  assert (Hd1 : ∀ k, k ≠ "calorie" → dict_get k d1 = dict_get k d).
  { intros k Hk. subst d1. destruct c; try done. by apply dict_get_set_ne. }
  assert (Hk1 : d1.*1 = d.*1).
  { subst d1. destruct c; try done. apply dict_set_keys_Some. by eexists. }
  clearbody d1.
  destruct (dict_get "date" d1) as [dt|] eqn:Hdt; [|discriminate].
  destruct (py_format dt) as [s|]; [|discriminate].
  rewrite !dict_get_set_ne by done.
  destruct (dict_get "day" d1) as [dy|] eqn:Hdy; [|discriminate].
  destruct (table_index weekday_to_index dy) as [i|]; [|discriminate].
  rewrite !dict_get_set_ne by done.
  destruct (dict_get "time" d1) as [tm|] eqn:Htm; [|discriminate].
  destruct (table_index time_to_index tm) as [j|]; [|discriminate].
  intros [= <-]. eexists. split; [done|]. split.
  - intros k Hk. unfold assigned_keys in Hk.
    rewrite !not_elem_of_cons in Hk. destruct Hk as (? & ? & ? & ? & ? & _).
    rewrite !dict_get_set_ne by done. by apply Hd1.
  - rewrite (dict_set_keys_Some "time")
      by (repeat apply dict_get_set_is_Some; rewrite Htm; by eexists).
    rewrite (dict_set_keys_Some "day")
      by (repeat apply dict_get_set_is_Some; rewrite Hdy; by eexists).
    rewrite <- (Hd1 "restaurant_name") by done.
    set (dd := dict_set "date" _ d1).
    assert (Hrn : dict_get "restaurant_name" dd = dict_get "restaurant_name" d1)
      by (by apply dict_get_set_ne).
    assert (Hkeys : dd.*1 = d1.*1)
      by (apply dict_set_keys_Some; rewrite Hdt; by eexists).
    rewrite <- Hrn, <- Hk1, <- Hkeys.
    destruct (dict_get "restaurant_name" dd) eqn:Hdd.
    + rewrite dict_set_keys_Some, app_nil_r; [done|]. rewrite Hdd. by eexists.
    + by rewrite dict_set_keys_None.
Qed.

Lemma X7_witness :
  ∃ d', normalize_item 2025 "학생_식당" (PyDict Cases.entry_with_note)
        = Ok (PyDict d') ∧
        dict_get "note" d' = Some (PyStr "closed at noon") ∧
        dict_get "menus" d' = Some (PyList [PyStr "Rice"; PyStr "Soup"]) ∧
        d'.*1 = ["note"; "restaurant_name"; "date"; "day"; "menus"; "calorie";
                 "time"].
Proof.
  destruct (X7_loop_body_leaves_the_other_keys 2025 "학생_식당"
              Cases.entry_with_note _ eq_refl)
    as (d' & [= <-] & Hother & Hkeys).
  eexists. split_and!.
  - reflexivity.
  - rewrite Hother; [reflexivity|]. apply (bool_decide_unpack _). by vm_compute.
  - rewrite Hother; [reflexivity|]. apply (bool_decide_unpack _). by vm_compute.
  - exact Hkeys.
Defined.

(** ** Validation *)

Lemma validate_str_Some v s : validate_str v = Some s ↔ v = JStr s.
Proof. destruct v; simpl; split; congruence. Qed.

Lemma mapM_validate_str l ms :
  mapM validate_str l = Some ms ↔ l = JStr <$> ms.
Proof.
  rewrite mapM_Some. split.
  - induction 1 as [|x y l ms Hx _ IH]; [done|].
    apply validate_str_Some in Hx as ->. by rewrite IH.
  - intros ->. induction ms; by constructor.
Qed.

Lemma validate_str_list_Some v ms :
  validate_list validate_str v = Some ms ↔ v = JArr (JStr <$> ms).
Proof.
  destruct v; simpl; try (split; congruence).
  rewrite mapM_validate_str. split; congruence.
Qed.

(** What validation asks of an item and of the answer, and what it puts in
    the records. *)
Lemma validate_models_spec lax :
  (∀ o d,
     validate_DailyMenu lax (JObj o) = Some d ↔
     o !! "date" = Some (JStr (date d)) ∧
     o !! "day" = Some (JStr (day d)) ∧
     o !! "menus" = Some (JArr (JStr <$> menus d)) ∧
     (∃ c, o !! "calorie" = Some c ∧ validate_int lax c = Some (calorie d)) ∧
     o !! "time" = Some (JStr (time d))) ∧
  (∀ top w,
     validate_WeeklyMenu lax (JObj top) = Some w ↔
     (∃ l, top !! "items" = Some (JArr l) ∧
           Forall2 (λ x d, validate_DailyMenu lax x = Some d) l (items w)) ∧
     top !! "restaurant_name" = Some (JStr (restaurant_name w)) ∧
     top !! "start_date" = Some (JStr (start_date w)) ∧
     top !! "end_date" = Some (JStr (end_date w))) ∧
  (∀ v, (∀ o, v ≠ JObj o) →
        validate_DailyMenu lax v = None ∧ validate_WeeklyMenu lax v = None).
Proof.
  split_and!.
  - intros o [dt dy ms c tm]. simpl. unfold validate_DailyMenu, required. split.
    + intros H.
      apply bind_Some in H as (dt' & H1 & H).
      apply bind_Some in H as (dy' & H2 & H).
      apply bind_Some in H as (ms' & H3 & H).
      apply bind_Some in H as (c' & H4 & H).
      apply bind_Some in H as (tm' & H5 & H).
      injection H as -> -> -> -> ->.
      apply bind_Some in H1 as (v1 & -> & ->%validate_str_Some).
      apply bind_Some in H2 as (v2 & -> & ->%validate_str_Some).
      apply bind_Some in H3 as (v3 & -> & ->%validate_str_list_Some).
      apply bind_Some in H4 as (v4 & -> & Hc).
      apply bind_Some in H5 as (v5 & -> & ->%validate_str_Some).
      split_and!; try done. by exists v4.
    + intros (-> & -> & -> & (v4 & -> & Hc) & ->). simpl.
      rewrite (proj2 (mapM_validate_str _ ms) eq_refl). simpl.
      by rewrite Hc.
  - intros top [its rn sd ed]. simpl. unfold validate_WeeklyMenu, required. split.
    + intros H.
      apply bind_Some in H as (its' & H1 & H).
      apply bind_Some in H as (rn' & H2 & H).
      apply bind_Some in H as (sd' & H3 & H).
      apply bind_Some in H as (ed' & H4 & H).
      injection H as -> -> -> ->.
      apply bind_Some in H1 as (v1 & Hv1 & H1).
      apply bind_Some in H2 as (v2 & -> & ->%validate_str_Some).
      apply bind_Some in H3 as (v3 & -> & ->%validate_str_Some).
      apply bind_Some in H4 as (v4 & -> & ->%validate_str_Some).
      split_and!; try done.
      destruct v1; try done. simpl in H1. apply mapM_Some in H1.
      by eexists.
    + intros ((l & -> & Hl) & -> & -> & ->). simpl.
      apply mapM_Some in Hl. by rewrite Hl.
  - intros v Hv. by destruct v; try done; destruct (Hv o).
Qed.

(** ** How a run ends *)

Lemma main_validated lax E w fs :
  validated_answer lax E w → main lax E fs = persist E w fs.
Proof.
  intros (k & u & img & text & Hk & Hkey & Hu & Himg & Hgen & Hw).
  by rewrite main_unfold, Hk, (proj2 (String.eqb_neq _ _) Hkey), Hu, Himg,
    Hgen, Hw.
Qed.

Lemma main_inv lax E fs r fs' :
  main lax E fs = (r, fs') →
  (∃ e, r = Raise e ∧ fs' = fs) ∨
  (∃ w, validated_answer lax E w ∧ persist E w fs = (r, fs')).
Proof.
  rewrite main_unfold.
  destruct (environ E !! "GEMINI_API_KEY") as [k|] eqn:Hk;
    [|intros [= <- <-]; left; by eexists].
  destruct (String.eqb_spec k "") as [|Hkey];
    [intros [= <- <-]; left; by eexists|].
  destruct (environ E !! "IMAGE_URL") as [u|] eqn:Hu;
    [|intros [= <- <-]; left; by eexists].
  destruct (fetch_image E u) as [img|] eqn:Himg;
    [|intros [= <- <-]; left; by eexists].
  destruct (generate_content E k img) as [t|] eqn:Hgen;
    [|intros [= <- <-]; left; by eexists].
  destruct (model_validate_json lax t) as [w|] eqn:Hw;
    [|intros [= <- <-]; left; by eexists].
  intros H. right. exists w. split; [|done]. by exists k, u, img, t.
Qed.

Lemma persist_inv E w fs r fs' :
  persist E w fs = (r, fs') →
  (∃ e, r = Raise e ∧ fs' = fs) ∨
  (fs !! final_path (now_year E) w = None ∧
   ((r = Raise KeyError ∧ ¬ Forall valid_entry (items w) ∧
     fs' = <[final_path (now_year E) w := ""]> fs) ∨
    (r = Ok () ∧ Forall valid_entry (items w) ∧
     ∃ out, output_for_save (now_year E) w = Ok out ∧
            fs' = <[final_path (now_year E) w := dumps (PyList out)]> fs))).
Proof.
  rewrite persist_unfold. cbv zeta.
  destruct (fs !! final_path (now_year E) w) eqn:Hfs;
    [intros [= <- <-]; left; by eexists|].
  destruct (can_create E _); [|intros [= <- <-]; left; by eexists].
  destruct (output_for_save (now_year E) w) as [out|e] eqn:Hout;
    intros [= <- <-]; right; (split; [done|]).
  - right. split_and!; [done|by eapply output_for_save_valid|by exists out].
  - left. apply output_for_save_Raise in Hout
      as (-> & good & bad & rest & Heq & _ & Hbad).
    split_and!; [done| |done]. rewrite Heq. intros H.
    apply Forall_app in H as [_ H]. by apply Forall_cons in H as [? _].
Qed.

(** X1: a run ends in one of three ways.  It raises and leaves the file
    system as it was; or it has a validated answer with an entry whose day or
    time is not in the tables, finds no file at the target, raises KeyError
    and leaves an empty file there; or it has a validated answer all of
    whose entries are in the tables, finds no file at the target, ends
    normally and leaves there the dump of the loop's output. *)
Theorem X1_a_run_ends_in_one_of_three_ways lax E fs r fs' :
  main lax E fs = (r, fs') →
  (∃ e, r = Raise e ∧ fs' = fs) ∨
  (∃ w, validated_answer lax E w ∧
        fs !! final_path (now_year E) w = None ∧
        r = Raise KeyError ∧ ¬ Forall valid_entry (items w) ∧
        fs' = <[final_path (now_year E) w := ""]> fs) ∨
  (∃ w out, validated_answer lax E w ∧
            fs !! final_path (now_year E) w = None ∧
            r = Ok () ∧ Forall valid_entry (items w) ∧
            output_for_save (now_year E) w = Ok out ∧
            fs' = <[final_path (now_year E) w := dumps (PyList out)]> fs).
Proof.
  intros H. apply main_inv in H as [H|(w & Hw & H)]; [by left|].
  apply persist_inv in H as [H|[Hfs [(-> & Hbad & ->)|(-> & Hok & out & Hout & ->)]]].
  - by left.
  - right; left. by exists w.
  - right; right. by exists w, out.
Qed.

Lemma X1_witness :
  ∃ w out,
    validated_answer Scenario.no_lax Cases.good w ∧
    (∅ : files) !! final_path (now_year Cases.good) w = None ∧
    Ok () = Ok () ∧ Forall valid_entry (items w) ∧
    output_for_save (now_year Cases.good) w = Ok out ∧
    {[ "menus/학생_식당_2025-03-04.json" :=
         dumps (PyList [PyDict [("date", PyStr "2025-03-04");
                                ("day", PyInt 1);
                                ("menus", PyList [PyStr "Rice"; PyStr "Soup"]);
                                ("calorie", PyInt 0);
                                ("time", PyInt 2);
                                ("restaurant_name", PyStr "학생_식당")]]) ]}
    = <[final_path (now_year Cases.good) w := dumps (PyList out)]> (∅ : files).
Proof.
  destruct (X1_a_run_ends_in_one_of_three_ways _ _ _ _ _ scenario_run)
    as [(e & [=] & _)|[(w & _ & _ & [=] & _)|H]].
  exact H.
Defined.



(** X3: whatever the outcome, a run changes no file that was there before
    it, and it creates at most one file. *)
Theorem X3_no_file_is_changed_and_at_most_one_created lax E fs r fs' :
  main lax E fs = (r, fs') →
  (∀ p content, fs !! p = Some content → fs' !! p = Some content) ∧
  (∀ p q, fs !! p = None → fs !! q = None →
          is_Some (fs' !! p) → is_Some (fs' !! q) → p = q).
Proof.
  intros H.
  assert (fs' = fs ∨ ∃ t content, fs !! t = None ∧ fs' = <[t := content]> fs)
    as [->|(t & content & Ht & ->)].
  { apply main_inv in H as [(e & _ & ->)|(w & _ & H)]; [by left|].
    apply persist_inv in H
      as [(e & _ & ->)|[Hfs [(_ & _ & ->)|(_ & _ & out & _ & ->)]]];
      [by left|right; by eexists _, _..]. }
  - split; [done|]. intros p q Hp _ [? Hp']. congruence.
  - split.
    + intros p c Hp. rewrite lookup_insert_ne; [done|]. congruence.
    + intros p q Hp Hq [? Hp'] [? Hq'].
      destruct (decide (t = p)) as [->|]; [|by rewrite lookup_insert_ne, Hp in Hp'].
      destruct (decide (p = q)) as [|]; [done|].
      by rewrite lookup_insert_ne, Hq in Hq'.
Qed.

(** The scenario, run beside the file of another week. *)
Example scenario_run_beside_another_file :
  main Scenario.no_lax Cases.good Cases.other_week
  = (Ok (),
     <[Cases.target := dumps (PyList Cases.monday_output)]> Cases.other_week).
Proof.
  change (main Scenario.no_lax Cases.good Cases.other_week)
    with (Scenario.run Cases.good Cases.other_week).
  unfold Cases.good.
  erewrite scenario_main by (vm_compute; reflexivity).
  rewrite persist_unfold. cbv zeta.
  set (p := final_path _ _). vm_compute in p. subst p.
  replace (Cases.other_week !! "menus/학생_식당_2025-03-04.json")
    with (@None string) by (by vm_compute).
  cbn [can_create Scenario.env now_year].
  set (o := output_for_save _ _). vm_compute in o. subst o.
  reflexivity.
Qed.

Lemma X3_witness :
  (<[Cases.target := dumps (PyList Cases.monday_output)]> Cases.other_week)
  !! "menus/학생_식당_2025-02-25.json" = Some "[]".
Proof.
  apply (proj1 (X3_no_file_is_changed_and_at_most_one_created _ _ _ _ _
                  scenario_run_beside_another_file)).
  by vm_compute.
Defined.

(** ** One file per restaurant, start date and year *)

Lemma final_path_eq year w w' :
  restaurant_name w' = restaurant_name w → start_date w' = start_date w →
  final_path year w' = final_path year w.
Proof. unfold final_path. by intros -> ->. Qed.

Lemma persist_target E w fs r fs' :
  persist E w fs = (r, fs') → r ≠ Raise OSError →
  is_Some (fs' !! final_path (now_year E) w).
Proof.
  rewrite persist_unfold. cbv zeta.
  destruct (fs !! final_path (now_year E) w) eqn:Hfs;
    [intros [= <- <-] _; by rewrite Hfs|].
  destruct (can_create E _); [|by intros [= <- <-]].
  destruct (output_for_save (now_year E) w);
    intros [= <- <-] _; rewrite lookup_insert_eq; by eexists.
Qed.

(** X4: once the writer has found a file at the target or has opened one
    there, whether it then finished or raised in the loop, every later call
    for the same restaurant name, start date and year raises AssertionError
    and changes nothing, whatever the items are.  So a run that ended
    normally, repeated on the file system it left, ends in
    AssertionError. *)
Theorem X4_the_target_is_written_once :
  (∀ E w fs r fs',
     persist E w fs = (r, fs') → r ≠ Raise OSError →
     ∀ E' w',
       now_year E' = now_year E →
       restaurant_name w' = restaurant_name w →
       start_date w' = start_date w →
       persist E' w' fs' = (Raise AssertionError, fs')) ∧
  (∀ lax E fs fs',
     main lax E fs = (Ok (), fs') →
     main lax E fs' = (Raise AssertionError, fs')).
Proof.
  split.
  - intros E w fs r fs' H Hr E' w' Hyear Hrn Hsd.
    apply persist_target in H as [old Hold]; [|done].
    rewrite persist_unfold. cbv zeta.
    by rewrite Hyear, (final_path_eq _ w w'), Hold.
  - intros lax E fs fs' H.
    apply main_inv in H as [(e & [=] & _)|(w & Hw & H)].
    rewrite (main_validated _ _ w) by done.
    apply persist_target in H as [old Hold]; [|done].
    rewrite persist_unfold. cbv zeta. by rewrite Hold.
Qed.

Lemma X4_witness :
  main Scenario.no_lax Cases.good
    (<[Cases.target := dumps (PyList Cases.monday_output)]> Cases.other_week)
  = (Raise AssertionError,
     <[Cases.target := dumps (PyList Cases.monday_output)]> Cases.other_week) ∧
  persist Cases.good Cases.no_items
    (<[Cases.target := dumps (PyList Cases.monday_output)]> Cases.other_week)
  = (Raise AssertionError,
     <[Cases.target := dumps (PyList Cases.monday_output)]> Cases.other_week).
Proof.
  split.
  - apply (proj2 X4_the_target_is_written_once Scenario.no_lax Cases.good
             Cases.other_week).
    exact scenario_run_beside_another_file.
  - apply (proj1 X4_the_target_is_written_once Cases.good Cases.monday
             Cases.other_week (Ok ())
             (<[Cases.target := dumps (PyList Cases.monday_output)]>
                Cases.other_week));
      [|discriminate|reflexivity..].
    rewrite <- scenario_run_beside_another_file.
    symmetry. apply main_validated. exists "key", Scenario.image_url,
      Scenario.image_bytes, (Some (Scenario.answer "학생_식당"
                                     [Scenario.entry "Mon" (JInt 0)])).
    split_and!; [by vm_compute|discriminate|by vm_compute..].
Defined.

(** ** What a good run writes *)

(** X5: an answer without items validates like any other; the loop has
    nothing to do and the file written holds the empty array, two
    bytes. *)
Theorem X5_no_items_gives_an_empty_array E w fs :
  items w = [] →
  fs !! final_path (now_year E) w = None →
  can_create E (final_path (now_year E) w) = true →
  persist E w fs = (Ok (), <[final_path (now_year E) w := "[]"]> fs).
Proof.
  intros Hitems Hfs Hcreate.
  rewrite persist_unfold. cbv zeta.
  by rewrite Hfs, Hcreate, output_for_save_unfold, Hitems.
Qed.

Lemma X5_witness :
  persist Cases.good Cases.no_items Cases.other_week
  = (Ok (), <[final_path (now_year Cases.good) Cases.no_items := "[]"]>
              Cases.other_week).
Proof.
  apply X5_no_items_gives_an_empty_array; by vm_compute.
Defined.

(** X9: when both variables are set and the key is not empty, the image
    is fetched, the model's answer validates, every entry has a day and a time of the tables, no
    file is at the target and one can be created there, the run ends
    normally; the file system is then the one before with, at the target,
    the dump of one dictionary per item, in the order of the items, each
    with the date under the year, the two indices, the menus and the
    calorie of its item and the restaurant name of the answer. *)
Theorem X9_a_good_run_writes_the_normalized_entries lax E w fs :
  validated_answer lax E w →
  Forall valid_entry (items w) →
  fs !! final_path (now_year E) w = None →
  can_create E (final_path (now_year E) w) = true →
  ∃ out,
    main lax E fs
    = (Ok (), <[final_path (now_year E) w := dumps (PyList out)]> fs) ∧
    Forall2 (λ d o, ∃ i j,
               dict_get (day d) weekday_to_index = Some i ∧
               dict_get (time d) time_to_index = Some j ∧
               o = normalized_entry (now_year E) (restaurant_name w) d i j)
      (items w) out.
Proof.
  intros Hw Hvalid Hfs Hcreate.
  destruct (output_for_save_of_valid (now_year E) w Hvalid) as [out Hout].
  exists out. split.
  - rewrite (main_validated _ _ w) by done.
    rewrite persist_unfold. cbv zeta. by rewrite Hfs, Hcreate, Hout.
  - apply output_for_save_Ok in Hout.
    eapply Forall2_impl; [exact Hout|].
    intros d o Ho. by apply normalize_item_dump_Ok in Ho.
Qed.

Lemma good_validated :
  validated_answer Scenario.no_lax Cases.good Cases.monday.
Proof.
  exists "key", Scenario.image_url, Scenario.image_bytes,
    (Some (Scenario.answer "학생_식당" [Scenario.entry "Mon" (JInt 0)])).
  split_and!; [by vm_compute|discriminate|by vm_compute..].
Qed.

Lemma X9_witness :
  ∃ out,
    main Scenario.no_lax Cases.good Cases.other_week
    = (Ok (), <[final_path (now_year Cases.good) Cases.monday
                := dumps (PyList out)]> Cases.other_week) ∧
    Forall2 (λ d o, ∃ i j,
               dict_get (day d) weekday_to_index = Some i ∧
               dict_get (time d) time_to_index = Some j ∧
               o = normalized_entry (now_year Cases.good)
                     (restaurant_name Cases.monday) d i j)
      (items Cases.monday) out.
Proof.
  apply X9_a_good_run_writes_the_normalized_entries.
  - exact good_validated.
  - repeat constructor; by eexists.
  - by vm_compute.
  - reflexivity.
Defined.

(** X11: after a run that ended normally, every entry of the dumped list
    has the keys date, day, menus, calorie, time and restaurant_name, in
    this order; its day is an integer from 1 to 7, its time an integer from
    1 to 3, its calorie an integer and its menus a list of strings. *)
Theorem X11_shape_of_a_persisted_entry lax E fs fs' :
  main lax E fs = (Ok (), fs') →
  ∃ w out,
    validated_answer lax E w ∧
    fs' !! final_path (now_year E) w = Some (dumps (PyList out)) ∧
    Forall (λ o, ∃ d i j z ms,
              o = PyDict d ∧ d.*1 = entry_keys ∧
              dict_get "day" d = Some (PyInt i) ∧ (1 ≤ i ≤ 7)%Z ∧
              dict_get "time" d = Some (PyInt j) ∧ (1 ≤ j ≤ 3)%Z ∧
              dict_get "calorie" d = Some (PyInt z) ∧
              dict_get "menus" d = Some (PyList (PyStr <$> ms))) out.
Proof.
  intros H. apply main_inv in H as [(e & [=] & _)|(w & Hw & H)].
  apply persist_Ok in H as (out & Hout & _ & ->).
  exists w, out. split_and!; [done|apply lookup_insert_eq|].
  apply output_for_save_Ok in Hout.
  induction Hout as [|d o ds os Ho _ IH]; constructor; [|done].
  apply normalize_item_dump_Ok in Ho as (i & j & Hi & Hj & ->).
  eexists _, i, j, (calorie d), (menus d).
  split_and!; try reflexivity.
  - apply weekday_bijection. by eexists.
  - apply weekday_bijection. by eexists.
  - apply time_bijection. by eexists.
  - apply time_bijection. by eexists.
Qed.

Lemma X11_witness :
  ∃ w out,
    validated_answer Scenario.no_lax Cases.good w ∧
    (<[Cases.target := dumps (PyList Cases.monday_output)]> Cases.other_week)
    !! final_path (now_year Cases.good) w = Some (dumps (PyList out)) ∧
    Forall (λ o, ∃ d i j z ms,
              o = PyDict d ∧ d.*1 = entry_keys ∧
              dict_get "day" d = Some (PyInt i) ∧ (1 ≤ i ≤ 7)%Z ∧
              dict_get "time" d = Some (PyInt j) ∧ (1 ≤ j ≤ 3)%Z ∧
              dict_get "calorie" d = Some (PyInt z) ∧
              dict_get "menus" d = Some (PyList (PyStr <$> ms))) out.
Proof.
  exact (X11_shape_of_a_persisted_entry _ _ _ _
           scenario_run_beside_another_file).
Defined.

(** ** Text that is written as it is *)

Lemma escape_char_plain c : plain_byte c = true → escape_char c = String c "".
Proof.
  unfold plain_byte, escape_char. cbv zeta.
  intros H. apply andb_prop in H as [H H92]. apply andb_prop in H as [H32 H34].
  apply N.leb_le in H32. apply negb_true_iff in H34, H92.
  rewrite H34, H92.
  repeat match goal with
         | |- context [N.eqb ?a ?b] =>
             destruct (N.eqb_spec a b) as [Heq|_]; [lia|]
         end.
  destruct (N.ltb_spec (N_of_ascii c) 32); [lia|done].
Qed.

Lemma escape_plain s :
  forallb plain_byte (String.list_ascii_of_string s) = true → escape s = s.
Proof.
  induction s as [|c s IH]; [done|]. simpl.
  intros H. apply andb_prop in H as [Hc Hs].
  by rewrite escape_char_plain, IH.
Qed.

(** X10: a string without control bytes, quotes and backslashes is
    written between two quotes as it is.  Every byte from 0x80 on is such a
    byte, so text outside ASCII reaches the file in its UTF-8 bytes,
    without \u escapes. *)
Theorem X10_text_outside_ascii_is_written_literally :
  (∀ s, forallb plain_byte (String.list_ascii_of_string s) = true →
        dumps (PyStr s) = String dquote (s +:+ String dquote "")) ∧
  (∀ c, (128 ≤ N_of_ascii c)%N → plain_byte c = true).
Proof.
  split.
  - intros s Hs. unfold dumps. simpl. unfold encode_str.
    by rewrite escape_plain.
  - intros c Hc. unfold plain_byte. cbv zeta.
    apply andb_true_intro. split; [apply andb_true_intro; split|].
    + apply N.leb_le. lia.
    + apply negb_true_iff, N.eqb_neq. lia.
    + apply negb_true_iff, N.eqb_neq. lia.
Qed.

Lemma X10_witness :
  dumps (PyStr dormitory_halal)
  = String dquote (dormitory_halal +:+ String dquote "").
Proof.
  apply (proj1 X10_text_outside_ascii_is_written_literally).
  by vm_compute.
Defined.

(** ** The year in the target *)

Lemma append_inv_head s t t' : s +:+ t = s +:+ t' → t = t'.
Proof.
  induction s as [|c s IH]; [done|].
  change (String c s +:+ t) with (String c (s +:+ t)).
  change (String c s +:+ t') with (String c (s +:+ t')).
  intros [= H]. auto.
Qed.

Lemma chars_append s t :
  String.list_ascii_of_string (s +:+ t)
  = String.list_ascii_of_string s ++ String.list_ascii_of_string t.
Proof.
  induction s as [|c s IH]; [done|].
  change (String c s +:+ t) with (String c (s +:+ t)). simpl. by rewrite IH.
Qed.

Lemma append_inv_tail s s' t : s +:+ t = s' +:+ t → s = s'.
Proof.
  intros H. apply (f_equal String.list_ascii_of_string) in H.
  rewrite !chars_append in H. apply app_inv_tail in H.
  apply (f_equal String.string_of_list_ascii) in H.
  by rewrite !String.string_of_list_ascii_of_string in H.
Qed.

Lemma str_of_int_inj z z' : str_of_int z = str_of_int z' → z = z'.
Proof.
  assert (Hnil : ∀ n, Z.to_int n ≠ Decimal.Pos Decimal.Nil ∧
                      Z.to_int n ≠ Decimal.Neg Decimal.Nil).
  { intros n. split; intros H; pose proof (DecimalZ.of_to n) as Hn;
      rewrite H in Hn; simpl in Hn; subst n; discriminate. }
  unfold str_of_int. intros H.
  apply (f_equal NilZero.int_of_string) in H.
  rewrite !NilZero.isi in H by apply Hnil.
  injection H as H. by apply DecimalZ.to_int_inj.
Qed.

(** X12: for a restaurant name and a start date without slash, the target
    tells the year: the same answer in two different years has two different
    targets, so the file of one year does not stand in the way of the
    next. *)
Theorem X12_another_year_is_another_target year year' w :
  no_slash (restaurant_name w) → no_slash (start_date w) →
  year ≠ year' → final_path year w ≠ final_path year' w.
Proof.
  intros Hrn Hsd Hyear.
  rewrite !final_path_proper by by apply no_slash_proper.
  unfold save_file_name. intros H. apply Hyear.
  do 3 apply append_inv_head in H.
  apply str_of_int_inj. eapply append_inv_tail.
  exact H.
Qed.

Lemma X12_witness :
  final_path 2025 Cases.monday ≠ final_path 2026 Cases.monday.
Proof.
  apply X12_another_year_is_another_target;
    [apply (bool_decide_unpack _); by vm_compute..|lia].
Defined.

(** ** From the model's answer to the file *)

Lemma Forall2_compose {A B C} (R : A → B → Prop) (S : B → C → Prop) l k m :
  Forall2 R l k → Forall2 S k m →
  Forall2 (λ x z, ∃ y, R x y ∧ S y z) l m.
Proof.
  intros H. revert m. induction H as [|x y l k Hxy _ IH]; intros m Hm.
  - apply Forall2_nil_inv_l in Hm as ->. constructor.
  - apply Forall2_cons_inv_l in Hm as (z & m' & Hyz & Hm & ->).
    constructor; eauto.
Qed.

(** A run that ends normally: the items of the answer, the records they
    validate to and the entries of the file, side by side. *)
Lemma main_Ok_entries lax E fs fs' :
  main lax E fs = (Ok (), fs') →
  ∃ api_key image_data top l w out,
    generate_content E api_key image_data = Some (Some (JObj top)) ∧
    top !! "items" = Some (JArr l) ∧
    validate_WeeklyMenu lax (JObj top) = Some w ∧
    fs' = <[final_path (now_year E) w := dumps (PyList out)]> fs ∧
    Forall2 (λ x o, ∃ d i j,
               validate_DailyMenu lax x = Some d ∧
               dict_get (day d) weekday_to_index = Some i ∧
               dict_get (time d) time_to_index = Some j ∧
               o = normalized_entry (now_year E) (restaurant_name w) d i j)
      l out.
Proof.
  intros H.
  apply main_Ok in H as (k & u & img & text & w & _ & _ & _ & Hgen & Hw & H).
  apply persist_Ok in H as (out & Hout & _ & ->).
  unfold model_validate_json in Hw. destruct text as [doc|]; [|done].
  change (Some doc ≫= validate_WeeklyMenu lax)
    with (validate_WeeklyMenu lax doc) in Hw.
  destruct (validate_WeeklyMenu lax doc) as [w'|] eqn:Hdoc; [|done].
  injection Hw as ->.
  pose proof Hdoc as Hitems.
  apply validate_WeeklyMenu_items in Hitems as (top & l & -> & Hl & Hall).
  exists k, img, top, l, w, out. split_and!; try done.
  apply output_for_save_Ok in Hout.
  eapply Forall2_impl; [exact (Forall2_compose _ _ _ _ _ Hall Hout)|].
  intros x o (d & Hd & Ho). simpl in Ho.
  apply normalize_item_dump_Ok in Ho as (i & j & Hi & Hj & ->).
  by exists d, i, j.
Qed.

(** C4: the claim fails on the code for a null calorie.  The loop body has
    the guard that turns a calorie of None into 0, but nothing gets to it:
    on the scenario of the specification, with its null calorie, the run
    ends in the validation error and no file is written.  The other half of
    the claim holds from the answer to the file: after a run that ended
    normally, an item whose calorie is a JSON integer has that integer as
    the calorie of its entry. *)
Theorem C4_null_calorie_is_rejected_before_the_guard :
  Scenario.run
    (Scenario.env 200 (Scenario.answer "학생_식당" [Scenario.entry "Mon" JNull]))
    ∅
  = (Raise ValidationError, ∅) ∧
  (∀ year rn d out,
     dict_get "calorie" d = Some PyNone →
     normalize_item year rn (PyDict d) = Ok out →
     getitem out "calorie" = Ok (PyInt 0)) ∧
  (∀ lax E fs fs',
     main lax E fs = (Ok (), fs') →
     ∃ api_key image_data top l w out,
       generate_content E api_key image_data = Some (Some (JObj top)) ∧
       top !! "items" = Some (JArr l) ∧
       fs' !! final_path (now_year E) w = Some (dumps (PyList out)) ∧
       Forall2 (λ x o, ∀ ob z,
                  x = JObj ob → ob !! "calorie" = Some (JInt z) →
                  getitem o "calorie" = Ok (PyInt z)) l out).
Proof.
  split_and!.
  - by vm_compute.
  - intros year rn d out Hc H.
    apply normalize_item_inv in H
      as (d0 & d' & c & dt & s & i & j & [= <-] & -> & Hc' & _ & _ & _ & _
          & Hcal & _).
    rewrite Hc in Hc'. injection Hc' as <-.
    unfold getitem. unfold_result. simpl. by rewrite Hcal.
  - intros lax E fs fs' H.
    apply main_Ok_entries in H
      as (k & img & top & l & w & out & Hgen & Hl & _ & -> & Hall).
    exists k, img, top, l, w, out. split_and!; [done|done|apply lookup_insert_eq|].
    eapply Forall2_impl; [exact Hall|].
    intros x o (d & i & j & Hd & _ & _ & ->) ob z -> Hz.
    apply validate_DailyMenu_calorie in Hd as (ob' & c & [= <-] & Hc & _ & Hint).
    rewrite Hz in Hc. injection Hc as <-. simpl in Hint.
    injection Hint as ->. reflexivity.
Qed.

Lemma C4_witness :
  (∃ out,
     normalize_item 2025 "학생_식당" (PyDict Scenario.entry_without_calorie)
     = Ok out ∧
     getitem out "calorie" = Ok (PyInt 0)) ∧
  (∃ api_key image_data top l w out,
     generate_content Cases.good api_key image_data = Some (Some (JObj top)) ∧
     top !! "items" = Some (JArr l) ∧
     (<[Cases.target := dumps (PyList Cases.monday_output)]> Cases.other_week)
     !! final_path (now_year Cases.good) w = Some (dumps (PyList out)) ∧
     Forall2 (λ x o, ∀ ob z,
                x = JObj ob → ob !! "calorie" = Some (JInt z) →
                getitem o "calorie" = Ok (PyInt z)) l out).
Proof.
  split.
  - eexists. split; [reflexivity|].
    apply (proj1 (proj2 C4_null_calorie_is_rejected_before_the_guard) 2025
             "학생_식당" Scenario.entry_without_calorie); reflexivity.
  - exact (proj2 (proj2 C4_null_calorie_is_rejected_before_the_guard) _ _ _ _
             scenario_run_beside_another_file).
Defined.

(** X8: after a run that ended normally, every item of the answer is an
    object whose "menus" is an array of strings, and the entry written for
    it has these strings, the same and in the same order, as its menus. *)
Theorem X8_menus_reach_the_file_as_the_model_gave_them lax E fs fs' :
  main lax E fs = (Ok (), fs') →
  ∃ api_key image_data top l w out,
    generate_content E api_key image_data = Some (Some (JObj top)) ∧
    top !! "items" = Some (JArr l) ∧
    fs' !! final_path (now_year E) w = Some (dumps (PyList out)) ∧
    Forall2 (λ x o, ∃ ob ms,
               x = JObj ob ∧ ob !! "menus" = Some (JArr (JStr <$> ms)) ∧
               getitem o "menus" = Ok (PyList (PyStr <$> ms))) l out.
Proof.
  intros H.
  apply main_Ok_entries in H
    as (k & img & top & l & w & out & Hgen & Hl & _ & -> & Hall).
  exists k, img, top, l, w, out. split_and!; [done|done|apply lookup_insert_eq|].
  eapply Forall2_impl; [exact Hall|].
  intros x o (d & i & j & Hd & _ & _ & ->).
  destruct x as [| | | | | |ob]; try done.
  apply (proj1 (validate_models_spec lax)) in Hd as (_ & _ & Hmenus & _).
  by exists ob, (menus d).
Qed.

Lemma X8_witness :
  ∃ api_key image_data top l w out,
    generate_content Cases.good api_key image_data = Some (Some (JObj top)) ∧
    top !! "items" = Some (JArr l) ∧
    (<[Cases.target := dumps (PyList Cases.monday_output)]> Cases.other_week)
    !! final_path (now_year Cases.good) w = Some (dumps (PyList out)) ∧
    Forall2 (λ x o, ∃ ob ms,
               x = JObj ob ∧ ob !! "menus" = Some (JArr (JStr <$> ms)) ∧
               getitem o "menus" = Ok (PyList (PyStr <$> ms))) l out.
Proof.
  exact (X8_menus_reach_the_file_as_the_model_gave_them _ _ _ _
           scenario_run_beside_another_file).
Defined.
